(** * The research agent graph of backend/src/agent/graph.py

    A shallow embedding of the four graph nodes ([generate_query],
    [web_research], [reflection], [finalize_answer]), the two routing
    functions ([continue_to_web_research], [evaluate_research]), the prompt
    templates of backend/src/agent/prompts.py and the edge wiring of
    [builder], followed by the properties of the research loop.

    Python dictionaries with a fixed set of keys are records; a key that may
    be missing is an [option] field.  Python integers are [Z].  Calls to the
    language model and to the search tool are answered by an explicit
    [Providers] record, so that every possible reply is covered. *)

From Stdlib Require Import List String Ascii ZArith Lia Permutation DecimalString Bool.
Import ListNotations.
Open Scope string_scope.

(** ** Strings *)

Definition nl : string := String "010"%char EmptyString.
Definition dq : string := String "034"%char EmptyString.

(** [str(n)] for a Python integer. *)
Definition str_int (z : Z) : string := NilZero.string_of_int (Z.to_int z).

(** [sep.join(parts)]. *)
Definition join (sep : string) (parts : list string) : string :=
  String.concat sep parts.

(** A multi-line literal, one source line per list element. *)
Definition text (lines : list string) : string := join nl lines.

(** [needle in hay]. *)
Definition contains (hay needle : string) : bool :=
  match String.index 0 needle hay with Some _ => true | None => false end.

(** ** Exceptions *)

Inductive exn : Type :=
| KeyError (key : string)
| ValueError (msg : string).

Inductive result (A : Type) : Type :=
| Ok (a : A)
| Raise (e : exn).
Arguments Ok {A} a.
Arguments Raise {A} e.

Definition bind {A B} (m : result A) (k : A -> result B) : result B :=
  match m with
  | Ok a => k a
  | Raise e => Raise e
  end.

Notation "x <- m ;; k" := (bind m (fun x => k))
  (at level 61, m at next level, right associativity).

(** [d[key]] on a dictionary whose key may be missing. *)
Definition item {A} (key : string) (o : option A) : result A :=
  match o with
  | Some a => Ok a
  | None => Raise (KeyError key)
  end.

(** ** [str.format] with keyword arguments

    A template is the format string cut at its replacement fields; the
    escapes [{{] and [}}] of the source are the literal braces.  A field
    without a keyword argument raises [KeyError]; a keyword argument
    without a field is ignored, as in Python. *)

Inductive segment : Type :=
| Lit (s : string)
| Field (name : string).

Definition template := list segment.

Fixpoint lookup_kw (name : string) (kw : list (string * string)) : option string :=
  match kw with
  | [] => None
  | (k, v) :: rest => if String.eqb k name then Some v else lookup_kw name rest
  end.

Fixpoint format (t : template) (kw : list (string * string)) : result string :=
  match t with
  | [] => Ok EmptyString
  | Lit s :: rest =>
      tail <- format rest kw ;; Ok (s ++ tail)
  | Field name :: rest =>
      v <- item name (lookup_kw name kw) ;;
      tail <- format rest kw ;; Ok (v ++ tail)
  end.

(** The replacement fields of a template. *)
Fixpoint fields (t : template) : list string :=
  match t with
  | [] => []
  | Lit _ :: rest => fields rest
  | Field name :: rest => name :: fields rest
  end.

(** ** backend/src/agent/prompts.py *)

Definition query_writer_instructions : template :=
  [ Lit (text
      [ "Your goal is to generate sophisticated and diverse web search queries. These queries are intended for an advanced automated web research tool capable of analyzing complex results, following links, and synthesizing information."
      ; EmptyString
      ; "Instructions:"
      ; "- Always prefer a single search query, only add another query if the original question requests multiple aspects or elements and one query is not enough."
      ; "- Each query should focus on one specific aspect of the original question."
      ; "- Don't produce more than " ])
  ; Field "number_queries"
  ; Lit (text
      [ " queries."
      ; "- Queries should be diverse, if the topic is broad, generate more than 1 query."
      ; "- Don't generate multiple similar queries, 1 is enough."
      ; "- Query should ensure that the most current information is gathered. The current date is " ])
  ; Field "current_date"
  ; Lit (text
      [ "."
      ; EmptyString
      ; "Format: "
      ; "- Format your response as a JSON object with ALL three of these exact keys:"
      ; "   - " ++ dq ++ "rationale" ++ dq ++ ": Brief explanation of why these queries are relevant"
      ; "   - " ++ dq ++ "query" ++ dq ++ ": A list of search queries"
      ; EmptyString
      ; "Example:"
      ; EmptyString
      ; "Topic: What revenue grew more last year apple stock or the number of people buying an iphone"
      ; "```json"
      ; "{"
      ; "    " ++ dq ++ "rationale" ++ dq ++ ": " ++ dq ++ "To answer this comparative growth question accurately, we need specific data points on Apple's stock performance and iPhone sales metrics. These queries target the precise financial information needed: company revenue trends, product-specific unit sales figures, and stock price movement over the same fiscal period for direct comparison." ++ dq ++ ","
      ; "    " ++ dq ++ "query" ++ dq ++ ": [" ++ dq ++ "Apple total revenue growth fiscal year 2024" ++ dq ++ ", " ++ dq ++ "iPhone unit sales growth fiscal year 2024" ++ dq ++ ", " ++ dq ++ "Apple stock price growth fiscal year 2024" ++ dq ++ "],"
      ; "}"
      ; "```"
      ; EmptyString
      ; "Context: " ])
  ; Field "research_topic" ].

Definition reflection_instructions : template :=
  [ Lit ("You are an expert research assistant analyzing summaries about " ++ dq)
  ; Field "research_topic"
  ; Lit (text
      [ dq ++ "."
      ; EmptyString
      ; "Instructions:"
      ; "- Analyze the following summaries, which are derived from web searches."
      ; "- Each summary is formatted as: " ++ dq ++ "Source [number]: Title" ++ nl ++ "URL: url" ++ nl ++ "Content: snippet" ++ dq ++ "."
      ; "- Based on these summaries, determine if you have sufficient information to provide a comprehensive answer to the user's original question: " ++ dq ])
  ; Field "research_topic"
  ; Lit (text
      [ dq ++ "."
      ; "- If the information is insufficient, identify the knowledge gaps and generate specific, targeted follow-up queries for a web search tool."
      ; "- If the information is sufficient, state that and provide an empty list for follow-up queries."
      ; EmptyString
      ; "Requirements:"
      ; "- Ensure any follow-up queries are self-contained and provide enough context."
      ; EmptyString
      ; "Output Format:"
      ; "- Format your response as a JSON object with these exact keys:"
      ; "   - " ++ dq ++ "is_sufficient" ++ dq ++ ": true or false"
      ; "   - " ++ dq ++ "knowledge_gap" ++ dq ++ ": A string describing what information is missing. If sufficient, this should be an empty string."
      ; "   - " ++ dq ++ "follow_up_queries" ++ dq ++ ": A list of strings, where each string is a follow-up search query. If sufficient, this should be an empty list."
      ; EmptyString
      ; "Example:"
      ; "```json"
      ; "{"
      ; "    " ++ dq ++ "is_sufficient" ++ dq ++ ": false,"
      ; "    " ++ dq ++ "knowledge_gap" ++ dq ++ ": " ++ dq ++ "The summaries confirm the event happened but lack details on the specific individuals who won awards." ++ dq ++ ","
      ; "    " ++ dq ++ "follow_up_queries" ++ dq ++ ": [" ++ dq ++ "Who won the Best Player award at Euro 2024?" ++ dq ++ ", " ++ dq ++ "Who was the top goal scorer at Euro 2024?" ++ dq ++ "]"
      ; "}"
      ; "```"
      ; EmptyString
      ; "Reflect carefully on the Summaries to identify knowledge gaps and produce a follow-up query. Then, produce your output following this JSON format:"
      ; EmptyString
      ; "Summaries:"
      ; EmptyString ])
  ; Field "summaries"
  ; Lit nl ].

Definition answer_instructions : template :=
  [ Lit (text
      [ "You are a research assistant. Your task is to generate a high-quality, comprehensive answer to the user's question based on the provided web search summaries."
      ; EmptyString
      ; "Instructions:"
      ; "- The current date is " ])
  ; Field "current_date"
  ; Lit (text
      [ "."
      ; "- You are the final step of a multi-step research process, don't mention that you are the final step. "
      ; "- You have access to all the information gathered from the previous steps."
      ; "- You have access to the user's question."
      ; "- Generate a high-quality answer to the user's question based on the provided summaries and the user's question."
      ; "- you MUST include all the citations from the summaries in the answer correctly."
      ; EmptyString
      ; "User Context:"
      ; "- " ])
  ; Field "research_topic"
  ; Lit (text
      [ EmptyString
      ; EmptyString
      ; "Summaries:"
      ; EmptyString ])
  ; Field "summaries" ].

(** ** Data *)

(** One search result of the Tavily tool, read by the keys the nodes use. *)
Record SearchResult : Type := {
  title : string;
  url : string;
  content : string
}.

Inductive Message : Type :=
| HumanMessage (text_content : string)
| AIMessage (text_content : string).

(** The structured outputs the nodes read ([result.query],
    [result.is_sufficient], ...). *)
Record SearchQueryList : Type := { query : list string }.

Record Reflection : Type := {
  r_is_sufficient : bool;
  r_knowledge_gap : string;
  r_follow_up_queries : list string
}.

(** [Configuration.from_runnable_config(config)], by the attributes read in
    graph.py. *)
Module Configuration.
Record t : Type := {
  query_generator_model : string;
  reflection_model : string;
  answer_model : string;
  number_of_initial_queries : Z;
  max_research_loops : Z
}.
End Configuration.

(** The shared run state.  The four accumulating channels are always
    present (empty at the start of a run); every other key may be missing. *)
Module OverallState.
Record t : Type := {
  messages : list Message;
  search_query : list string;
  web_research_result : list string;
  sources_gathered : list SearchResult;
  query_list : option (list string);
  initial_search_query_count : option Z;
  max_research_loops : option Z;
  research_loop_count : option Z;
  reflection_model : option string;
  answer_model : option string;
  is_sufficient : option bool;
  knowledge_gap : option string;
  follow_up_queries : option (list string)
}.

(** [state["initial_search_query_count"] = v] *)
Definition set_initial_search_query_count (v : Z) (s : t) : t :=
  {| messages := messages s;
     search_query := search_query s;
     web_research_result := web_research_result s;
     sources_gathered := sources_gathered s;
     query_list := query_list s;
     initial_search_query_count := Some v;
     max_research_loops := max_research_loops s;
     research_loop_count := research_loop_count s;
     reflection_model := reflection_model s;
     answer_model := answer_model s;
     is_sufficient := is_sufficient s;
     knowledge_gap := knowledge_gap s;
     follow_up_queries := follow_up_queries s |}.

(** [state["research_loop_count"] = v] *)
Definition set_research_loop_count (v : Z) (s : t) : t :=
  {| messages := messages s;
     search_query := search_query s;
     web_research_result := web_research_result s;
     sources_gathered := sources_gathered s;
     query_list := query_list s;
     initial_search_query_count := initial_search_query_count s;
     max_research_loops := max_research_loops s;
     research_loop_count := Some v;
     reflection_model := reflection_model s;
     answer_model := answer_model s;
     is_sufficient := is_sufficient s;
     knowledge_gap := knowledge_gap s;
     follow_up_queries := follow_up_queries s |}.
End OverallState.

(** The per-branch input of a fanned-out [web_research] task. *)
Module WebSearchState.
Record t : Type := { search_query : string }.
End WebSearchState.

(** The dictionary a node returns: only the keys it writes are present. *)
Module Update.
Record t : Type := {
  messages : option (list Message);
  search_query : option (list string);
  web_research_result : option (list string);
  sources_gathered : option (list SearchResult);
  query_list : option (list string);
  research_loop_count : option Z;
  is_sufficient : option bool;
  knowledge_gap : option string;
  follow_up_queries : option (list string)
}.
End Update.

(** [Send(node, arg)] *)
Record Send : Type := { send_node : string; send_arg : WebSearchState.t }.

(** What a routing function returns: a node name or a list of [Send]s. *)
Inductive Route : Type :=
| ToNode (name : string)
| Fanout (sends : list Send).

(** The chat model built by [get_llm], by the fields that tell two models
    apart; temperature, key and headers are the same for every call. *)
Record ChatOpenAI : Type := {
  model : string;
  max_retries : Z;
  base_url : string
}.

(** The outside world of one node invocation: the replies of the language
    model and of the search tool, the clock behind [get_current_date] and
    [agent.utils.get_research_topic]. *)
Record Providers : Type := {
  invoke_query_list : ChatOpenAI -> string -> SearchQueryList;
  invoke_reflection : ChatOpenAI -> string -> Reflection;
  invoke_text : ChatOpenAI -> string -> string;
  tavily_invoke : string -> list SearchResult;
  get_current_date : string;
  get_research_topic : list Message -> string
}.

(** ** Python helpers *)

(** [a or b] on an optional string: [None] and the empty string are falsy. *)
Definition or_else (a : option string) (b : string) : string :=
  match a with
  | Some (String c s) => String c s
  | Some EmptyString => b
  | None => b
  end.

(** [d.get(key, default)] *)
Definition get_default {A} (o : option A) (default : A) : A :=
  match o with
  | Some a => a
  | None => default
  end.

(** [enumerate(l)] *)
Definition enumerate {A} (l : list A) : list (nat * A) :=
  combine (seq 0 (List.length l)) l.

(** ** Nodes *)

Definition get_llm (configurable : Configuration.t) (model_name : string) : ChatOpenAI :=
  {| model := model_name;
     max_retries := 2%Z;
     base_url := "https://openrouter.ai/api/v1" |}.

(** The state as [generate_query] sees it after its line
    [if state.get("initial_search_query_count") is None: ...]. *)
Definition generate_query_state (state : OverallState.t) (configurable : Configuration.t)
  : OverallState.t :=
  match OverallState.initial_search_query_count state with
  | None =>
      OverallState.set_initial_search_query_count
        (Configuration.number_of_initial_queries configurable) state
  | Some _ => state
  end.

Definition generate_query_prompt (w : Providers) (state : OverallState.t)
    (config : Configuration.t) : result string :=
  let configurable := config in
  let state := generate_query_state state configurable in
  let current_date := get_current_date w in
  number_queries <- item "initial_search_query_count"
                      (OverallState.initial_search_query_count state) ;;
  format query_writer_instructions
    [ ("current_date", current_date)
    ; ("research_topic", get_research_topic w (OverallState.messages state))
    ; ("number_queries", str_int number_queries) ].

Definition generate_query (w : Providers) (state : OverallState.t)
    (config : Configuration.t) : result Update.t :=
  let configurable := config in
  let llm := get_llm configurable (Configuration.query_generator_model configurable) in
  formatted_prompt <- generate_query_prompt w state config ;;
  let result := invoke_query_list w llm formatted_prompt in
  Ok {| Update.messages := None; Update.search_query := None;
        Update.web_research_result := None; Update.sources_gathered := None;
        Update.query_list := Some (query result);
        Update.research_loop_count := None; Update.is_sufficient := None;
        Update.knowledge_gap := None; Update.follow_up_queries := None |}.

Definition continue_to_web_research (state : OverallState.t) : result (list Send) :=
  qs <- item "query_list" (OverallState.query_list state) ;;
  Ok (map (fun search_query =>
             {| send_node := "web_research";
                send_arg := {| WebSearchState.search_query := search_query |} |})
          qs).

(** One round of the loop [for i, res in enumerate(search_results)]. *)
Definition format_result (formatted_results : string) (ir : nat * SearchResult) : string :=
  let (i, res) := ir in
  formatted_results ++
    "Source [" ++ str_int (Z.of_nat i + 1)%Z ++ "]: " ++ title res ++ nl ++
    "URL: " ++ url res ++ nl ++
    "Content: " ++ content res ++ nl ++ nl.

Definition format_results (search_results : list SearchResult) : string :=
  fold_left format_result (enumerate search_results) EmptyString.

Definition web_research (w : Providers) (state : WebSearchState.t)
    (config : Configuration.t) : result Update.t :=
  let search_query := WebSearchState.search_query state in
  let search_results := tavily_invoke w search_query in
  let formatted_results := format_results search_results in
  Ok {| Update.messages := None;
        Update.search_query := Some [search_query];
        Update.web_research_result := Some [formatted_results];
        Update.sources_gathered := Some search_results;
        Update.query_list := None;
        Update.research_loop_count := None; Update.is_sufficient := None;
        Update.knowledge_gap := None; Update.follow_up_queries := None |}.

(** The state as [reflection] sees it after its line
    [state["research_loop_count"] = state.get("research_loop_count", 0) + 1]. *)
Definition reflection_state (state : OverallState.t) : OverallState.t :=
  OverallState.set_research_loop_count
    (get_default (OverallState.research_loop_count state) 0 + 1)%Z state.

Definition reflection_llm (state : OverallState.t) (configurable : Configuration.t)
  : ChatOpenAI :=
  let model_name :=
    or_else (OverallState.reflection_model state)
            (Configuration.reflection_model configurable) in
  get_llm configurable model_name.

Definition reflection_prompt (w : Providers) (state : OverallState.t) : result string :=
  let current_date := get_current_date w in
  format reflection_instructions
    [ ("current_date", current_date)
    ; ("research_topic", get_research_topic w (OverallState.messages state))
    ; ("summaries",
       join (nl ++ nl ++ "---" ++ nl ++ nl) (OverallState.web_research_result state)) ].

Definition reflection (w : Providers) (state : OverallState.t)
    (config : Configuration.t) : result Update.t :=
  let configurable := config in
  let state := reflection_state state in
  let llm := reflection_llm state configurable in
  formatted_prompt <- reflection_prompt w state ;;
  let result := invoke_reflection w llm formatted_prompt in
  count <- item "research_loop_count" (OverallState.research_loop_count state) ;;
  Ok {| Update.messages := None; Update.search_query := None;
        Update.web_research_result := None; Update.sources_gathered := None;
        Update.query_list := None;
        Update.research_loop_count := Some count;
        Update.is_sufficient := Some (r_is_sufficient result);
        Update.knowledge_gap := Some (r_knowledge_gap result);
        Update.follow_up_queries := Some (r_follow_up_queries result) |}.

Definition evaluate_research (state : OverallState.t) (config : Configuration.t)
  : result Route :=
  let configurable := config in
  let max_research_loops :=
    match OverallState.max_research_loops state with
    | Some m => m
    | None => Configuration.max_research_loops configurable
    end in
  sufficient <- item "is_sufficient" (OverallState.is_sufficient state) ;;
  if sufficient then Ok (ToNode "finalize_answer")
  else
    count <- item "research_loop_count" (OverallState.research_loop_count state) ;;
    if (count >=? max_research_loops)%Z then Ok (ToNode "finalize_answer")
    else
      qs <- item "follow_up_queries" (OverallState.follow_up_queries state) ;;
      Ok (Fanout
            (map (fun follow_up_query =>
                    {| send_node := "web_research";
                       send_arg := {| WebSearchState.search_query := follow_up_query |} |})
                 qs)).

Definition answer_llm (state : OverallState.t) (configurable : Configuration.t)
  : ChatOpenAI :=
  let model_name :=
    or_else (OverallState.answer_model state)
            (Configuration.answer_model configurable) in
  get_llm configurable model_name.

(** One line of the citation list, [f"[{i+1}]: [{source['title']}]({source['url']})"]. *)
Definition source_line (isrc : nat * SearchResult) : string :=
  let (i, source) := isrc in
  "[" ++ str_int (Z.of_nat i + 1)%Z ++ "]: [" ++ title source ++ "](" ++ url source ++ ")".

Definition source_list (state : OverallState.t) : string :=
  join nl (map source_line (enumerate (OverallState.sources_gathered state))).

Definition finalize_answer_prompt (w : Providers) (state : OverallState.t) : result string :=
  let current_date := get_current_date w in
  format answer_instructions
    [ ("current_date", current_date)
    ; ("research_topic", get_research_topic w (OverallState.messages state))
    ; ("summaries",
       join (nl ++ "---" ++ nl ++ nl) (OverallState.web_research_result state))
    ; ("source_list", source_list state) ].

Definition finalize_answer (w : Providers) (state : OverallState.t)
    (config : Configuration.t) : result Update.t :=
  let configurable := config in
  let llm := answer_llm state configurable in
  formatted_prompt <- finalize_answer_prompt w state ;;
  let result := invoke_text w llm formatted_prompt in
  Ok {| Update.messages := Some [AIMessage result];
        Update.search_query := None;
        Update.web_research_result := None;
        Update.sources_gathered := Some (OverallState.sources_gathered state);
        Update.query_list := None;
        Update.research_loop_count := None; Update.is_sufficient := None;
        Update.knowledge_gap := None; Update.follow_up_queries := None |}.

(** ** Module-level checks of graph.py

    [os.getenv] after [load_dotenv()] is the function [getenv].  The two
    checks run when the module is imported, before [builder] exists. *)
Definition check_api_keys (getenv : string -> option string) : result unit :=
  match getenv "OPENROUTER_API_KEY" with
  | None => Raise (ValueError "OPENROUTER_API_KEY is not set")
  | Some _ =>
      match getenv "TAVILY_API_KEY" with
      | None => Raise (ValueError "TAVILY_API_KEY is not set")
      | Some _ => Ok tt
      end
  end.

(** ** State channels *)

(** A key under the overwrite policy: the last write wins, a dictionary
    without the key leaves it alone. *)
Definition overwrite {A} (old new : option A) : option A :=
  match new with
  | Some v => Some v
  | None => old
  end.

(** Modelled from the spec: agent/state.py, which declares the state keys
    and how concurrent writes to each are merged, is not among the sources.
    Section 3 of the specification gives the merge policy: the conversation
    ([messages]), [web_research_result] and [sources_gathered] append, every
    other key is overwritten by the last write.  [search_query], which
    [web_research] returns as a one-element list, is accumulated like the
    other list-valued branch outputs. *)
Definition apply_update (s : OverallState.t) (u : Update.t) : OverallState.t :=
  {| OverallState.messages :=
       (OverallState.messages s ++ get_default (Update.messages u) [])%list;
     OverallState.search_query :=
       (OverallState.search_query s ++ get_default (Update.search_query u) [])%list;
     OverallState.web_research_result :=
       (OverallState.web_research_result s
          ++ get_default (Update.web_research_result u) [])%list;
     OverallState.sources_gathered :=
       (OverallState.sources_gathered s
          ++ get_default (Update.sources_gathered u) [])%list;
     OverallState.query_list :=
       overwrite (OverallState.query_list s) (Update.query_list u);
     OverallState.initial_search_query_count :=
       OverallState.initial_search_query_count s;
     OverallState.max_research_loops := OverallState.max_research_loops s;
     OverallState.research_loop_count :=
       overwrite (OverallState.research_loop_count s) (Update.research_loop_count u);
     OverallState.reflection_model := OverallState.reflection_model s;
     OverallState.answer_model := OverallState.answer_model s;
     OverallState.is_sufficient :=
       overwrite (OverallState.is_sufficient s) (Update.is_sufficient u);
     OverallState.knowledge_gap :=
       overwrite (OverallState.knowledge_gap s) (Update.knowledge_gap u);
     OverallState.follow_up_queries :=
       overwrite (OverallState.follow_up_queries s) (Update.follow_up_queries u) |}.

(** The writes of one step, merged one after the other. *)
Definition apply_updates (s : OverallState.t) (us : list Update.t) : OverallState.t :=
  fold_left apply_update us s.

(** What the caller of a run supplies: the question and the overrides. *)
Record RunInput : Type := {
  in_messages : list Message;
  in_initial_search_query_count : option Z;
  in_max_research_loops : option Z;
  in_reflection_model : option string;
  in_answer_model : option string
}.

(** Modelled from the spec: the creation of the run state is outside
    graph.py.  Section 3 of the specification: the state is created once at
    run start with empty accumulators and the supplied overrides. *)
Definition initial_state (input : RunInput) : OverallState.t :=
  {| OverallState.messages := in_messages input;
     OverallState.search_query := [];
     OverallState.web_research_result := [];
     OverallState.sources_gathered := [];
     OverallState.query_list := None;
     OverallState.initial_search_query_count := in_initial_search_query_count input;
     OverallState.max_research_loops := in_max_research_loops input;
     OverallState.research_loop_count := None;
     OverallState.reflection_model := in_reflection_model input;
     OverallState.answer_model := in_answer_model input;
     OverallState.is_sufficient := None;
     OverallState.knowledge_gap := None;
     OverallState.follow_up_queries := None |}.

(** ** Graph definition: [builder] *)

Definition START : string := "__start__".
Definition END : string := "__end__".

(** [builder.add_edge(a, b)] *)
Definition edges : list (string * string) :=
  [ (START, "generate_query")
  ; ("web_research", "reflection")
  ; ("finalize_answer", END) ].

Definition RouterFn : Type := OverallState.t -> Configuration.t -> result Route.

(** [builder.add_conditional_edges(source, path, path_map)]; a list
    [path_map] names the possible targets and maps each to itself. *)
Definition conditional_edges : list (string * (RouterFn * list (string * string))) :=
  [ ("generate_query",
     ((fun state _ => sends <- continue_to_web_research state ;; Ok (Fanout sends)),
      [ ("web_research", "web_research") ]))
  ; ("reflection",
     (evaluate_research,
      [ ("web_research", "web_research")
      ; ("finalize_answer", "finalize_answer") ])) ].

(** ** Running the graph

    A task is a node about to run: triggered by an edge, it reads the shared
    state; started by a [Send], it reads the argument of the [Send].  One
    step runs every pending task on the state as it was when the step
    began, merges the returned dictionaries, and then follows the edges that
    leave the nodes that ran: their fixed edges, and for a conditional edge
    the targets its routing function names on the merged state.  Several
    finished tasks of one node follow that node's edges once.  A step whose
    edges name no node leaves nothing to run, and the run is over. *)

Inductive Task : Type :=
| Pull (name : string)
| Push (s : Send).

Definition task_name (t : Task) : string :=
  match t with
  | Pull name => name
  | Push s => send_node s
  end.

(** [builder.add_node(name, fn)].  [web_research] takes the argument of a
    [Send]; no edge of [builder] reaches it otherwise. *)
Definition run_task (w : Providers) (state : OverallState.t) (config : Configuration.t)
    (t : Task) : result Update.t :=
  match t with
  | Pull name =>
      if name =? "generate_query" then generate_query w state config
      else if name =? "reflection" then reflection w state config
      else if name =? "finalize_answer" then finalize_answer w state config
      else Raise (ValueError ("no state-triggered node " ++ name))
  | Push s =>
      if send_node s =? "web_research" then web_research w (send_arg s) config
      else Raise (ValueError ("no Send target " ++ send_node s))
  end.

Fixpoint run_tasks (ws : nat -> Providers) (state : OverallState.t)
    (config : Configuration.t) (i : nat) (ts : list Task) : result (list Update.t) :=
  match ts with
  | [] => Ok []
  | t :: rest =>
      u <- run_task (ws i) state config t ;;
      us <- run_tasks ws state config (S i) rest ;;
      Ok (u :: us)
  end.

Fixpoint lookup_edge {A} (name : string) (table : list (string * A)) : option A :=
  match table with
  | [] => None
  | (k, v) :: rest => if k =? name then Some v else lookup_edge name rest
  end.

Definition fixed_targets (name : string) : list Task :=
  map (fun e => Pull (snd e))
      (filter (fun e => (fst e =? name) && negb (snd e =? END)) edges).

Definition routed_targets (state : OverallState.t) (config : Configuration.t)
    (name : string) : result (list Task) :=
  match lookup_edge name conditional_edges with
  | None => Ok []
  | Some (path, path_map) =>
      r <- path state config ;;
      match r with
      | ToNode dest =>
          target <- item dest (lookup_kw dest path_map) ;;
          Ok [Pull target]
      | Fanout sends => Ok (map Push sends)
      end
  end.

Fixpoint next_tasks (state : OverallState.t) (config : Configuration.t)
    (ran : list string) : result (list Task) :=
  match ran with
  | [] => Ok []
  | name :: rest =>
      routed <- routed_targets state config name ;;
      others <- next_tasks state config rest ;;
      Ok (fixed_targets name ++ routed ++ others)%list
  end.

Record Run : Type := {
  pending : list Task;
  state : OverallState.t;
  history : list (list Task)
}.

(** The providers are indexed by step and by task within the step, so that
    every invocation may be answered differently. *)
Definition World : Type := nat -> nat -> Providers.

Definition superstep (world : World) (config : Configuration.t) (r : Run) : result Run :=
  us <- run_tasks (world (List.length (history r))) (state r) config 0 (pending r) ;;
  let merged := apply_updates (state r) us in
  nxt <- next_tasks merged config (nodup string_dec (map task_name (pending r))) ;;
  Ok {| pending := nxt; state := merged; history := (history r ++ [pending r])%list |}.

Definition start (input : RunInput) : Run :=
  {| pending := fixed_targets START; state := initial_state input; history := [] |}.

Fixpoint run (fuel : nat) (world : World) (config : Configuration.t) (r : Run)
  : result Run :=
  match fuel with
  | O => Ok r
  | S fuel' =>
      match pending r with
      | [] => Ok r
      | _ :: _ => r' <- superstep world config r ;; run fuel' world config r'
      end
  end.

(** [graph.invoke(input, config)] in a process with the given environment:
    importing graph.py comes first. *)
Definition invoke (getenv : string -> option string) (fuel : nat) (world : World)
    (config : Configuration.t) (input : RunInput) : result Run :=
  _ <- check_api_keys getenv ;;
  run fuel world config (start input).

(** ** Observations on a run *)

Definition loop_count (r : Run) : Z :=
  get_default (OverallState.research_loop_count (state r)) 0%Z.

Definition is_wave (step : list Task) : bool :=
  existsb (fun t => task_name t =? "web_research") step.

(** The fan-out waves of [web_research] branches a run has executed. *)
Definition waves (r : Run) : nat := List.length (filter is_wave (history r)).

Definition ran (name : string) (r : Run) : Prop :=
  exists step, In step (history r) /\ In name (map task_name step).

(** The maximum the router compares with: the override of the state when
    present, else the configured value. *)
Definition max_loops (input : RunInput) (config : Configuration.t) : Z :=
  match in_max_research_loops input with
  | Some m => m
  | None => Configuration.max_research_loops config
  end.

(** One [Send("web_research", {"search_query": q})] per query, in list
    order: the shape both routing functions return. *)
Definition dispatch (qs : list string) : list Send :=
  map (fun q => {| send_node := "web_research";
                   send_arg := {| WebSearchState.search_query := q |} |}) qs.

(** ** Inputs used to run the definitions *)

Definition sample_config : Configuration.t :=
  {| Configuration.query_generator_model := "query-model";
     Configuration.reflection_model := "reflection-default";
     Configuration.answer_model := "answer-default";
     Configuration.number_of_initial_queries := 3;
     Configuration.max_research_loops := 2 |}.

Definition sample_input : RunInput :=
  {| in_messages := [HumanMessage "Who won Euro 2024?"];
     in_initial_search_query_count := None;
     in_max_research_loops := None;
     in_reflection_model := None;
     in_answer_model := None |}.

(** A search tool that finds one page per query, a model that asks for the
    given queries and is never satisfied. *)
Definition sample_providers (queries follow_ups : list string) : Providers :=
  {| invoke_query_list := fun _ _ => {| query := queries |};
     invoke_reflection := fun _ _ =>
       {| r_is_sufficient := false;
          r_knowledge_gap := "winner unknown";
          r_follow_up_queries := follow_ups |};
     invoke_text := fun _ _ => "Spain.";
     tavily_invoke := fun q =>
       [ {| title := "Page on " ++ q; url := "https://example.org/" ++ q;
            content := "text" |} ];
     get_current_date := "November 03, 2026";
     get_research_topic := fun _ => "Who won Euro 2024?" |}.

Definition sample_world (queries follow_ups : list string) : World :=
  fun _ _ => sample_providers queries follow_ups.

(** The state a [reflection] step leaves behind: insufficient after the
    first loop, one follow-up query. *)
Definition sample_reflected : OverallState.t :=
  apply_update (initial_state sample_input)
    {| Update.messages := None; Update.search_query := None;
       Update.web_research_result := None; Update.sources_gathered := None;
       Update.query_list := None;
       Update.research_loop_count := Some 1%Z;
       Update.is_sufficient := Some false;
       Update.knowledge_gap := Some "winner unknown";
       Update.follow_up_queries := Some ["Euro 2024 final result"] |}.

(** ** Definitions used to state the properties *)

(** The number of queries [generate_query] asks for. *)
Definition number_queries (state : OverallState.t) (config : Configuration.t) : Z :=
  match OverallState.initial_search_query_count state with
  | Some n => n
  | None => Configuration.number_of_initial_queries config
  end.

(** The summary block of a result list whose first entry is numbered
    [first + 1]. *)
Fixpoint source_blocks (first : nat) (rs : list SearchResult) : string :=
  match rs with
  | [] => EmptyString
  | res :: rest =>
      ("Source [" ++ str_int (Z.of_nat first + 1)%Z ++ "]: " ++ title res ++ nl ++
       "URL: " ++ url res ++ nl ++
       "Content: " ++ content res ++ nl ++ nl)
      ++ source_blocks (S first) rest
  end.

(** The citation lines of a source list whose first entry is numbered
    [first + 1]. *)
Fixpoint citation_lines (first : nat) (rs : list SearchResult) : list string :=
  match rs with
  | [] => []
  | source :: rest =>
      ("[" ++ str_int (Z.of_nat first + 1)%Z ++ "]: ["
           ++ title source ++ "](" ++ url source ++ ")")
      :: citation_lines (S first) rest
  end.

(** The state of the sample run after its first wave: two branches, one
    page each. *)
Definition sample_after_wave : OverallState.t :=
  match run 2 (sample_world ["a"; "b"] ["c"]) sample_config (start sample_input) with
  | Ok r => state r
  | Raise _ => initial_state sample_input
  end.

(** What one returned dictionary adds to each accumulator. *)
Definition added_results (u : Update.t) : list string :=
  get_default (Update.web_research_result u) [].

Definition added_sources (u : Update.t) : list SearchResult :=
  get_default (Update.sources_gathered u) [].

(** The dictionaries the branches of a wave return, in dispatch order; the
    branch at position [i] of the wave is answered by [ws i]. *)
Fixpoint wave_updates (ws : nat -> Providers) (i : nat) (qs : list string)
  : list Update.t :=
  match qs with
  | [] => []
  | q :: rest =>
      {| Update.messages := None;
         Update.search_query := Some [q];
         Update.web_research_result := Some [format_results (tavily_invoke (ws i) q)];
         Update.sources_gathered := Some (tavily_invoke (ws i) q);
         Update.query_list := None;
         Update.research_loop_count := None; Update.is_sufficient := None;
         Update.knowledge_gap := None; Update.follow_up_queries := None |}
      :: wave_updates ws (S i) rest
  end.

(** What the searches of a wave found, one list per branch. *)
Fixpoint wave_found (ws : nat -> Providers) (i : nat) (qs : list string)
  : list (list SearchResult) :=
  match qs with
  | [] => []
  | q :: rest => tavily_invoke (ws i) q :: wave_found ws (S i) rest
  end.

(** [new] is [old] with entries added at the end: nothing removed, nothing
    moved. *)
Definition extends {A} (old new : list A) : Prop :=
  exists added, new = (old ++ added)%list.

(** A search tool that finds two pages per query. *)
Definition two_page_providers : Providers :=
  {| invoke_query_list := fun _ _ => {| query := ["a"] |};
     invoke_reflection := fun _ _ =>
       {| r_is_sufficient := true; r_knowledge_gap := EmptyString;
          r_follow_up_queries := [] |};
     invoke_text := fun _ _ => "Spain.";
     tavily_invoke := fun q =>
       [ {| title := "First"; url := "https://example.org/1"; content := "text" |}
       ; {| title := "Second"; url := "https://example.org/2"; content := "text" |} ];
     get_current_date := "November 03, 2026";
     get_research_topic := fun _ => "Who won Euro 2024?" |}.

(** A returned dictionary either has no [research_loop_count] key or sets
    it to [c]. *)
Definition writes_count (c : Z) (u : Update.t) : Prop :=
  Update.research_loop_count u = None \/ Update.research_loop_count u = Some c.

(** The fan-out waves among the steps of a history. *)
Definition count_waves (h : list (list Task)) : nat :=
  List.length (filter is_wave h).

(** The ceiling the counter respects: the configured maximum, but at least
    one, because the first [reflection] runs before the router looks. *)
Definition loop_bound (input : RunInput) (config : Configuration.t) : Z :=
  Z.max 1 (max_loops input config).

(** The providers never lead a routing function to an empty dispatch:
    the query generator returns at least one query, and a reflection that
    reports the research insufficient proposes at least one follow-up
    query.  A reflection that reports sufficiency may propose none. *)
Definition nonempty_dispatch (world : World) : Prop :=
  forall i j llm prompt,
    query (invoke_query_list (world i j) llm prompt) <> []
    /\ (r_is_sufficient (invoke_reflection (world i j) llm prompt) = false ->
        r_follow_up_queries (invoke_reflection (world i j) llm prompt) <> []).

(** A run that is over because a routing function returned no [Send]:
    [generate_query] returned no query, or [reflection] reported the
    research insufficient below the maximum and proposed no follow-up
    query. *)
Definition stopped_on_empty (input : RunInput) (config : Configuration.t) (r : Run)
  : Prop :=
  (OverallState.query_list (state r) = Some []
   /\ OverallState.research_loop_count (state r) = None)
  \/ (OverallState.is_sufficient (state r) = Some false
      /\ OverallState.follow_up_queries (state r) = Some []
      /\ (loop_count r < max_loops input config)%Z).

(** [state.get("research_loop_count", 0)] *)
Definition count_of (st : OverallState.t) : Z :=
  get_default (OverallState.research_loop_count st) 0%Z.

Section LoopShape.
Variable world : World.
Variable config : Configuration.t.
Variable input : RunInput.

(** No node writes [max_research_loops]: the state keeps the caller's
    override. *)
Definition keeps_override (st : OverallState.t) : Prop :=
  OverallState.max_research_loops st = in_max_research_loops input.

(** The states a run passes through, by what is pending. *)
Inductive on_track : Run -> Prop :=
| track_generate_query st h :
    OverallState.research_loop_count st = None ->
    keeps_override st ->
    count_waves h = 0%nat ->
    on_track {| pending := [Pull "generate_query"]; state := st; history := h |}
| track_web_research st h q qs :
    (0 <= count_of st < loop_bound input config)%Z ->
    keeps_override st ->
    count_waves h = Z.to_nat (count_of st) ->
    on_track {| pending := map Push (dispatch (q :: qs)); state := st; history := h |}
| track_reflection st h :
    (0 <= count_of st < loop_bound input config)%Z ->
    keeps_override st ->
    count_waves h = S (Z.to_nat (count_of st)) ->
    on_track {| pending := [Pull "reflection"]; state := st; history := h |}
| track_finalize_answer st h :
    (0 <= count_of st <= loop_bound input config)%Z ->
    keeps_override st ->
    count_waves h = Z.to_nat (count_of st) ->
    on_track {| pending := [Pull "finalize_answer"]; state := st; history := h |}
| track_over st h :
    (0 <= count_of st <= loop_bound input config)%Z ->
    keeps_override st ->
    count_waves h = Z.to_nat (count_of st) ->
    (nonempty_dispatch world -> In [Pull "finalize_answer"] h) ->
    on_track {| pending := []; state := st; history := h |}.

(** Steps still to go, at most. *)
Definition remaining (r : Run) : nat :=
  let left := Z.to_nat (loop_bound input config - loop_count r) in
  match pending r with
  | [] => 0
  | Push _ :: _ => 2 * left + 1
  | Pull name :: _ =>
      if name =? "generate_query" then 2 * Z.to_nat (loop_bound input config) + 2
      else if name =? "reflection" then 2 * left
      else 1
  end.
End LoopShape.

(** A configuration whose maximum is zero. *)
Definition zero_loops_config : Configuration.t :=
  {| Configuration.query_generator_model := "query-model";
     Configuration.reflection_model := "reflection-default";
     Configuration.answer_model := "answer-default";
     Configuration.number_of_initial_queries := 3;
     Configuration.max_research_loops := 0 |}.

(** ** More observations on a run *)

(** The queries of the [web_research] branches among the tasks of a step. *)
Definition branch_queries (step : list Task) : list string :=
  flat_map (fun t => match t with
                     | Push s => [WebSearchState.search_query (send_arg s)]
                     | Pull _ => []
                     end) step.

(** Every query a run has searched for, in the order of dispatch. *)
Definition dispatched (h : list (list Task)) : list string :=
  flat_map branch_queries h.

Definition runs_node (name : string) (step : list Task) : bool :=
  existsb (fun t => task_name t =? name) step.

(** The steps of a history in which the node ran. *)
Definition count_steps (name : string) (h : list (list Task)) : nat :=
  List.length (filter (runs_node name) h).

(** The [query_list] the first step of a run writes. *)
Definition first_queries (world : World) (config : Configuration.t) (input : RunInput)
  : option (list string) :=
  match generate_query (world 0%nat 0%nat) (initial_state input) config with
  | Ok u => Update.query_list u
  | Raise _ => None
  end.

(** What holds of the conversation, of the counter and of [query_list]
    in every state of a run. *)
Definition well_run (world : World) (config : Configuration.t) (input : RunInput)
    (r : Run) : Prop :=
  (ran "finalize_answer" r ->
     pending r = []
     /\ exists answer,
          OverallState.messages (state r)
          = (in_messages input ++ [AIMessage answer])%list)
  /\ (~ ran "finalize_answer" r ->
      OverallState.messages (state r) = in_messages input)
  /\ Z.of_nat (count_steps "reflection" (history r)) = loop_count r
  /\ (history r <> [] ->
      OverallState.query_list (state r) = first_queries world config input)
  /\ (pending r = [Pull "generate_query"] -> r = start input)
  /\ (history r = [] -> pending r = [Pull "generate_query"]).

(** Two clocks, months apart. *)
Definition providers_dated (date : string) : Providers :=
  {| invoke_query_list := fun _ _ => {| query := ["a"] |};
     invoke_reflection := fun _ _ =>
       {| r_is_sufficient := true; r_knowledge_gap := EmptyString;
          r_follow_up_queries := [] |};
     invoke_text := fun _ _ => "Spain.";
     tavily_invoke := fun _ => [];
     get_current_date := date;
     get_research_topic := fun _ => "Who won Euro 2024?" |}.

(** A model that is satisfied by the first reflection. *)
Definition satisfied_world : World := fun _ _ => two_page_providers.

(** ** backend/src/agent/app.py: the model catalogue

    Times are [datetime] values counted in microseconds, durations
    [timedelta] values in microseconds.  [Any] stands for the JSON objects
    under [pricing] and [architecture], which the code only passes on. *)

Module ModelInfo.
Record t (Any : Type) : Type := {
  id : string;
  name : string;
  description : option string;
  context_length : option Z;
  pricing : option Any;
  architecture : option Any
}.
Arguments id {Any} _.
Arguments name {Any} _.
Arguments description {Any} _.
Arguments context_length {Any} _.
Arguments pricing {Any} _.
Arguments architecture {Any} _.
End ModelInfo.

(** One entry of the ["data"] list of the catalogue reply, by the keys the
    code reads.  [id] and [name] are [None] when the key is missing or
    null; [description] tells a missing key ([None]) from a null value
    ([Some None]), because [model_data.get("description", "")] does. *)
Module ModelData.
Record t (Any : Type) : Type := {
  id : option string;
  name : option string;
  description : option (option string);
  context_length : option Z;
  pricing : option Any;
  architecture : option Any
}.
Arguments id {Any} _.
Arguments name {Any} _.
Arguments description {Any} _.
Arguments context_length {Any} _.
Arguments pricing {Any} _.
Arguments architecture {Any} _.
End ModelData.

(** The global [model_cache]. *)
Module ModelCache.
Record t (Any : Type) : Type := {
  data : option (list (ModelInfo.t Any));
  last_updated : option Z;
  cache_duration : Z
}.
Arguments data {Any} _.
Arguments last_updated {Any} _.
Arguments cache_duration {Any} _.
End ModelCache.

(** [timedelta(hours=1)] *)
Definition one_hour : Z := 3600000000%Z.

Definition model_cache (Any : Type) : ModelCache.t Any :=
  {| ModelCache.data := None;
     ModelCache.last_updated := None;
     ModelCache.cache_duration := one_hour |}.

(** What the [try] block of [fetch_openrouter_models] meets.
    [RequestFailed] is any exception raised inside the block: no
    connection, an error status, a body that is not JSON of the expected
    shape, or an entry with truthy [id] and [name] that [ModelInfo(...)]
    refuses (a field of the wrong type).  [Replied] is a reply the block
    gets through without an exception: its ["data"] key may be missing,
    and each entry is read by the string-valued [id] and [name] and the
    fields handed to [ModelInfo]. *)
Inductive Outcome (Any : Type) : Type :=
| RequestFailed
| Replied (listing : option (list (ModelData.t Any))).
Arguments RequestFailed {Any}.
Arguments Replied {Any} listing.

(** Truth value of [d.get(key)] for a string-valued key. *)
Definition truthy (o : option string) : bool :=
  match o with
  | Some (String _ _) => true
  | Some EmptyString => false
  | None => false
  end.

(** One round of the loop [for model_data in data.get("data", [])]. *)
Definition add_model {Any} (models : list (ModelInfo.t Any))
    (model_data : ModelData.t Any) : list (ModelInfo.t Any) :=
  match ModelData.id model_data, ModelData.name model_data with
  | Some model_id, Some model_name =>
      if truthy (Some model_id) && truthy (Some model_name) then
        (models ++
         [ {| ModelInfo.id := model_id;
              ModelInfo.name := model_name;
              ModelInfo.description :=
                get_default (ModelData.description model_data) (Some EmptyString);
              ModelInfo.context_length := ModelData.context_length model_data;
              ModelInfo.pricing := ModelData.pricing model_data;
              ModelInfo.architecture := ModelData.architecture model_data |} ])%list
      else models
  | _, _ => models
  end.

(** The fallback list of the [except] branch. *)
Definition default_models (Any : Type) : list (ModelInfo.t Any) :=
  [ {| ModelInfo.id := "deepseek/deepseek-r1-0528:free";
       ModelInfo.name := "DeepSeek R1 (Free)";
       ModelInfo.description := Some "DeepSeek R1 model with free tier access";
       ModelInfo.context_length := Some 128000%Z;
       ModelInfo.pricing := None; ModelInfo.architecture := None |}
  ; {| ModelInfo.id := "openai/gpt-4o-mini";
       ModelInfo.name := "GPT-4o Mini";
       ModelInfo.description := Some "OpenAI's efficient GPT-4o mini model";
       ModelInfo.context_length := Some 128000%Z;
       ModelInfo.pricing := None; ModelInfo.architecture := None |}
  ; {| ModelInfo.id := "anthropic/claude-3.5-sonnet";
       ModelInfo.name := "Claude 3.5 Sonnet";
       ModelInfo.description := Some "Anthropic's Claude 3.5 Sonnet model";
       ModelInfo.context_length := Some 200000%Z;
       ModelInfo.pricing := None; ModelInfo.architecture := None |} ].

(** The test at the top of [fetch_openrouter_models]; [now] is read only
    when both cache fields are set. *)
Definition cache_is_valid {Any} (cache : ModelCache.t Any) (now : Z) : bool :=
  match ModelCache.data cache, ModelCache.last_updated cache with
  | Some _, Some updated => (now - updated <? ModelCache.cache_duration cache)%Z
  | _, _ => false
  end.

(** [fetch_openrouter_models()], with the cache passed in and out.  The
    function reads the clock twice: [now_check] in the validity test,
    [now_store] when it stores a fresh list. *)
Definition fetch_openrouter_models {Any} (cache : ModelCache.t Any)
    (now_check now_store : Z) (outcome : Outcome Any)
  : list (ModelInfo.t Any) * ModelCache.t Any :=
  if cache_is_valid cache now_check then
    (get_default (ModelCache.data cache) [], cache)
  else
    match outcome with
    | Replied listing =>
        let models := fold_left add_model (get_default listing []) [] in
        (models,
         {| ModelCache.data := Some models;
            ModelCache.last_updated := Some now_store;
            ModelCache.cache_duration := ModelCache.cache_duration cache |})
    | RequestFailed =>
        match ModelCache.data cache with
        | Some cached => (cached, cache)
        | None => (default_models Any, cache)
        end
    end.

(** One request to [/api/models]: the two clock readings and what the
    network does. *)
Record Call (Any : Type) : Type := {
  now_check : Z;
  now_store : Z;
  outcome : Outcome Any
}.
Arguments now_check {Any} _.
Arguments now_store {Any} _.
Arguments outcome {Any} _.

(** A series of requests, one after the other: the answers and the cache
    they leave. *)
Fixpoint serve_models {Any} (cache : ModelCache.t Any) (calls : list (Call Any))
  : list (list (ModelInfo.t Any)) * ModelCache.t Any :=
  match calls with
  | [] => ([], cache)
  | call :: rest =>
      let (models, cache') :=
        fetch_openrouter_models cache (now_check call) (now_store call) (outcome call) in
      let (answers, final) := serve_models cache' rest in
      (models :: answers, final)
  end.

(** The usable entries of a listing, as the loop keeps them. *)
Definition usable {Any} (model_data : ModelData.t Any) : bool :=
  truthy (ModelData.id model_data) && truthy (ModelData.name model_data).

(** The [ModelInfo] the loop builds from a usable entry. *)
Definition model_info_of {Any} (model_data : ModelData.t Any) : ModelInfo.t Any :=
  {| ModelInfo.id := get_default (ModelData.id model_data) EmptyString;
     ModelInfo.name := get_default (ModelData.name model_data) EmptyString;
     ModelInfo.description :=
       get_default (ModelData.description model_data) (Some EmptyString);
     ModelInfo.context_length := ModelData.context_length model_data;
     ModelInfo.pricing := ModelData.pricing model_data;
     ModelInfo.architecture := ModelData.architecture model_data |}.

(** What a successful request returns for a listing. *)
Definition models_of {Any} (listing : list (ModelData.t Any)) : list (ModelInfo.t Any) :=
  map model_info_of (filter usable listing).

(** An answer of [/api/models] comes from the fallback list or from a
    listing the network delivered. *)
Definition answer_from {Any} (seen : list (list (ModelData.t Any)))
    (models : list (ModelInfo.t Any)) : Prop :=
  models = default_models Any \/ exists listing, In listing seen /\ models = models_of listing.

(** The cache holds nothing, or a list from a delivered listing together
    with the time it was stored. *)
Definition cache_from {Any} (seen : list (list (ModelData.t Any)))
    (cache : ModelCache.t Any) : Prop :=
  ModelCache.cache_duration cache = one_hour
  /\ match ModelCache.data cache with
     | None => ModelCache.last_updated cache = None
     | Some models =>
         ModelCache.last_updated cache <> None
         /\ exists listing, In listing seen /\ models = models_of listing
     end.

(** The listings the network delivered in a series of requests. *)
Definition listings {Any} (calls : list (Call Any)) : list (list (ModelData.t Any)) :=
  flat_map (fun call => match outcome call with
                        | Replied listing => [get_default listing []]
                        | RequestFailed => []
                        end) calls.

(** Sample catalogue entries. *)
Definition sample_listing : list (ModelData.t unit) :=
  [ {| ModelData.id := Some "openai/gpt-4o"; ModelData.name := Some "GPT-4o";
       ModelData.description := None; ModelData.context_length := Some 128000%Z;
       ModelData.pricing := None; ModelData.architecture := None |}
  ; {| ModelData.id := Some "broken"; ModelData.name := Some EmptyString;
       ModelData.description := Some None; ModelData.context_length := None;
       ModelData.pricing := None; ModelData.architecture := None |}
  ; {| ModelData.id := None; ModelData.name := Some "No id";
       ModelData.description := Some (Some "d"); ModelData.context_length := None;
       ModelData.pricing := None; ModelData.architecture := None |} ].

(** ** backend/src/agent/app.py: the frontend router

    Paths are values of a type [Path] with the join [/] of [pathlib]; the
    file system is what [is_dir], [is_file] and [exists] answer. *)

Section Frontend.
Variable Path : Type.
Variable joinpath : Path -> string -> Path.

Record FileSystem : Type := {
  is_dir : Path -> bool;
  is_file : Path -> bool;
  path_exists : Path -> bool
}.

Inductive FrontendResponse : Type :=
| PlainResponse (body : string) (media_type : string) (status_code : Z)
| FileResponse (fp : Path).

(** What [create_frontend_router] does: it returns the dummy route, or
    the app whose ["/assets"] mount serves [static_files_path] and whose
    catch-all route serves files found from [build_path], or it raises
    the [RuntimeError] of [StaticFiles(directory=...)] for a directory
    that does not exist. *)
Inductive FrontendRouter : Type :=
| DummyRoute
| ReactApp (build_path static_files_path : Path)
| StaticFilesError (directory : Path).

Definition create_frontend_router (fs : FileSystem) (build_path : Path)
  : FrontendRouter :=
  let static_files_path := joinpath build_path "assets" in
  if negb (is_dir fs build_path)
     || negb (is_file fs (joinpath build_path "index.html"))
  then DummyRoute
  else if is_dir fs static_files_path
       then ReactApp build_path static_files_path
       else StaticFilesError static_files_path.

(** [dummy_frontend(request)] *)
Definition dummy_frontend : FrontendResponse :=
  PlainResponse "Frontend not built. Run 'npm run build' in the frontend directory."
                "text/plain" 503.

(** [handle_catch_all(request, path)], for a request the ["/assets"] mount
    has not taken. *)
Definition handle_catch_all (fs : FileSystem) (build_path : Path) (path : string)
  : FrontendResponse :=
  let fp := joinpath build_path path in
  let fp := if negb (path_exists fs fp) || negb (is_file fs fp)
            then joinpath build_path "index.html"
            else fp in
  FileResponse fp.
End Frontend.

(** * Properties *)

(** ** Strings *)

Lemma append_assoc (a b c : string) : (a ++ b) ++ c = a ++ (b ++ c).
Proof. induction a as [|ch a IH]; simpl; [reflexivity | now rewrite IH]. Qed.

Lemma append_empty_r (a : string) : a ++ EmptyString = a.
Proof. induction a as [|ch a IH]; simpl; [reflexivity | now rewrite IH]. Qed.

(** ** The router after reflection *)

Lemma evaluate_research_finalize state config :
  OverallState.is_sufficient state = Some true ->
  evaluate_research state config = Ok (ToNode "finalize_answer").
Proof. intros H. unfold evaluate_research. rewrite H. reflexivity. Qed.

Lemma evaluate_research_insufficient state config count :
  OverallState.is_sufficient state = Some false ->
  OverallState.research_loop_count state = Some count ->
  evaluate_research state config =
    if (count >=? get_default (OverallState.max_research_loops state)
                    (Configuration.max_research_loops config))%Z
    then Ok (ToNode "finalize_answer")
    else qs <- item "follow_up_queries" (OverallState.follow_up_queries state) ;;
         Ok (Fanout (dispatch qs)).
Proof.
  intros Hs Hc. unfold evaluate_research, get_default. rewrite Hs, Hc. reflexivity.
Qed.

(** C1. On a state written by [reflection], [evaluate_research] returns
    ["finalize_answer"] exactly when [is_sufficient] is true or
    [research_loop_count >= maxLoops], where [maxLoops] is the state's
    [max_research_loops] when present and the configured one otherwise;
    in every other case it returns one [Send] to [web_research] per
    follow-up query, in list order, each carrying its query. *)
Theorem evaluate_research_routes
    (state : OverallState.t) (config : Configuration.t)
    (sufficient : bool) (count : Z) (qs : list string) :
  OverallState.is_sufficient state = Some sufficient ->
  OverallState.research_loop_count state = Some count ->
  OverallState.follow_up_queries state = Some qs ->
  let maxLoops :=
    get_default (OverallState.max_research_loops state)
                (Configuration.max_research_loops config) in
  (evaluate_research state config = Ok (ToNode "finalize_answer")
     <-> (sufficient = true \/ (count >= maxLoops)%Z))
  /\ (~ (sufficient = true \/ (count >= maxLoops)%Z) ->
      evaluate_research state config = Ok (Fanout (dispatch qs))).
Proof.
  intros Hs Hc Hq maxLoops.
  destruct sufficient.
  - rewrite (evaluate_research_finalize _ _ Hs). split.
    + split; [intros _; now left | reflexivity].
    + intros Hn. exfalso. apply Hn. now left.
  - rewrite (evaluate_research_insufficient _ _ _ Hs Hc). fold maxLoops.
    rewrite Hq. cbn [item bind].
    destruct (Z.geb_spec count maxLoops) as [Hge | Hlt].
    + split.
      * split; [intros _; right; lia | reflexivity].
      * intros Hn. exfalso. apply Hn. right. lia.
    + split.
      * split; [discriminate | intros [Ht | Hge]; [discriminate | lia]].
      * reflexivity.
Qed.

Lemma evaluate_research_routes_witness :
  (evaluate_research sample_reflected sample_config = Ok (ToNode "finalize_answer")
     <-> (false = true \/ (1 >= 2)%Z))
  /\ (~ (false = true \/ (1 >= 2)%Z) ->
      evaluate_research sample_reflected sample_config
        = Ok (Fanout (dispatch ["Euro 2024 final result"]))).
Proof.
  apply (evaluate_research_routes sample_reflected sample_config false 1
           ["Euro 2024 final result"]); reflexivity.
Defined.

(** ** Missing credentials *)

(** C8. When [OPENROUTER_API_KEY] or [TAVILY_API_KEY] is not set, invoking
    the graph raises the [ValueError] of the module-level check, whatever
    the fuel, the providers and the input: no step of the graph is taken
    and no run state comes back. *)
Theorem missing_api_key_raises
    (getenv : string -> option string) (fuel : nat) (world : World)
    (config : Configuration.t) (input : RunInput) :
  getenv "OPENROUTER_API_KEY" = None \/ getenv "TAVILY_API_KEY" = None ->
  check_api_keys getenv <> Ok tt
  /\ exists key,
       (key = "OPENROUTER_API_KEY" \/ key = "TAVILY_API_KEY")
       /\ getenv key = None
       /\ invoke getenv fuel world config input
          = Raise (ValueError (key ++ " is not set")).
Proof.
  intros H. unfold invoke, check_api_keys.
  destruct (getenv "OPENROUTER_API_KEY") eqn:Ho.
  - destruct H as [H | H]; [discriminate |]. rewrite H. split; [discriminate |].
    exists "TAVILY_API_KEY". repeat split; auto.
  - split; [discriminate |].
    exists "OPENROUTER_API_KEY". repeat split; auto.
Qed.

Lemma missing_api_key_raises_witness :
  let getenv := fun k => if k =? "OPENROUTER_API_KEY" then Some "sk-or-1" else None in
  check_api_keys getenv <> Ok tt
  /\ exists key,
       (key = "OPENROUTER_API_KEY" \/ key = "TAVILY_API_KEY")
       /\ getenv key = None
       /\ invoke getenv 10 (sample_world ["a"] ["b"]) sample_config sample_input
          = Raise (ValueError (key ++ " is not set")).
Proof.
  intros getenv.
  apply (missing_api_key_raises getenv 10 (sample_world ["a"] ["b"])
           sample_config sample_input).
  right. reflexivity.
Defined.

(** With both keys set the check passes and the run is the run of the graph. *)
Lemma api_keys_present_runs getenv fuel world config input k1 k2 :
  getenv "OPENROUTER_API_KEY" = Some k1 ->
  getenv "TAVILY_API_KEY" = Some k2 ->
  invoke getenv fuel world config input = run fuel world config (start input).
Proof. intros H1 H2. unfold invoke, check_api_keys. now rewrite H1, H2. Qed.

(** ** Prompts never fail

    Every replacement field of the three templates is supplied by its
    caller, so [format] returns. *)

Ltac run_format :=
  cbn [format bind item lookup_kw String.eqb Ascii.eqb Bool.eqb].

Lemma reflection_prompt_ok w state :
  reflection_prompt w state =
    format reflection_instructions
      [ ("research_topic", get_research_topic w (OverallState.messages state))
      ; ("summaries",
         join (nl ++ nl ++ "---" ++ nl ++ nl) (OverallState.web_research_result state)) ]
  /\ exists prompt, reflection_prompt w state = Ok prompt.
Proof.
  unfold reflection_prompt, reflection_instructions. run_format.
  split; [reflexivity | eexists; reflexivity].
Qed.

Lemma finalize_answer_prompt_ok w state :
  finalize_answer_prompt w state =
    format answer_instructions
      [ ("current_date", get_current_date w)
      ; ("research_topic", get_research_topic w (OverallState.messages state))
      ; ("summaries",
         join (nl ++ "---" ++ nl ++ nl) (OverallState.web_research_result state)) ]
  /\ exists prompt, finalize_answer_prompt w state = Ok prompt.
Proof.
  unfold finalize_answer_prompt, answer_instructions. run_format.
  split; [reflexivity | eexists; reflexivity].
Qed.

Lemma generate_query_state_count state config :
  OverallState.initial_search_query_count (generate_query_state state config)
  = Some (number_queries state config).
Proof.
  unfold generate_query_state, number_queries.
  destruct (OverallState.initial_search_query_count state) eqn:E; [exact E | reflexivity].
Qed.

Lemma generate_query_prompt_ok w state config :
  exists pre post,
    generate_query_prompt w state config
    = Ok (pre ++ "Don't produce more than "
              ++ str_int (number_queries state config) ++ " queries." ++ post).
Proof.
  unfold generate_query_prompt.
  rewrite generate_query_state_count. cbn [item bind].
  generalize (str_int (number_queries state config)); intros n.
  generalize (get_research_topic w
                (OverallState.messages (generate_query_state state config))); intros topic.
  unfold query_writer_instructions. run_format.
  match goal with
  | |- exists pre post, Ok (?T1 ++ n ++ ?T2 ++ ?rest) = _ =>
      exists (substring 0 (String.length T1 - 24) T1),
             (substring 9 (String.length T2 - 9) T2 ++ rest);
      change T1 with (substring 0 (String.length T1 - 24) T1
                        ++ "Don't produce more than ") at 1;
      change T2 with (" queries." ++ substring 9 (String.length T2 - 9) T2) at 1
  end.
  rewrite !append_assoc. reflexivity.
Qed.

(** ** generate_query *)

(** C7. [generate_query] asks for as many queries as the state's
    [initial_search_query_count] says when it is present and as many as
    the configuration says otherwise (the number is written into the
    prompt), calls the structured-output model once, and returns a
    dictionary whose only key is [query_list], holding the returned list;
    merged into any state, that list replaces whatever [query_list] held. *)
Theorem generate_query_replaces_query_list
    (w : Providers) (state : OverallState.t) (config : Configuration.t) :
  exists pre post,
    let n := match OverallState.initial_search_query_count state with
             | Some k => k
             | None => Configuration.number_of_initial_queries config
             end in
    let prompt :=
      pre ++ "Don't produce more than " ++ str_int n ++ " queries." ++ post in
    let returned :=
      query (invoke_query_list w
               (get_llm config (Configuration.query_generator_model config)) prompt) in
    generate_query_prompt w state config = Ok prompt
    /\ generate_query w state config
       = Ok {| Update.messages := None; Update.search_query := None;
               Update.web_research_result := None; Update.sources_gathered := None;
               Update.query_list := Some returned;
               Update.research_loop_count := None; Update.is_sufficient := None;
               Update.knowledge_gap := None; Update.follow_up_queries := None |}
    /\ forall before : OverallState.t,
         OverallState.query_list
           (apply_update before
              {| Update.messages := None; Update.search_query := None;
                 Update.web_research_result := None; Update.sources_gathered := None;
                 Update.query_list := Some returned;
                 Update.research_loop_count := None; Update.is_sufficient := None;
                 Update.knowledge_gap := None; Update.follow_up_queries := None |})
         = Some returned.
Proof.
  destruct (generate_query_prompt_ok w state config) as (pre & post & Hp).
  exists pre, post. cbn zeta. fold (number_queries state config).
  split; [exact Hp |].
  unfold generate_query. rewrite Hp. cbn [bind].
  split; reflexivity.
Qed.

(** ** Citation numbers *)

Lemma format_results_from (k : nat) (rs : list SearchResult) (acc : string) :
  fold_left format_result (combine (seq k (List.length rs)) rs) acc
  = acc ++ source_blocks k rs.
Proof.
  revert k acc. induction rs as [|res rs IH]; intros k acc.
  - cbn [List.length seq combine fold_left source_blocks].
    now rewrite append_empty_r.
  - cbn [List.length seq combine fold_left source_blocks].
    rewrite IH. unfold format_result. now rewrite append_assoc.
Qed.

Lemma format_results_blocks (rs : list SearchResult) :
  format_results rs = source_blocks 0 rs.
Proof. unfold format_results, enumerate. now rewrite format_results_from. Qed.

Lemma source_lines_from (k : nat) (rs : list SearchResult) :
  map source_line (combine (seq k (List.length rs)) rs) = citation_lines k rs.
Proof.
  revert k. induction rs as [|res rs IH]; intros k.
  - reflexivity.
  - cbn [List.length seq combine map citation_lines]. now rewrite IH.
Qed.

Lemma source_list_lines (state : OverallState.t) :
  source_list state = join nl (citation_lines 0 (OverallState.sources_gathered state)).
Proof. unfold source_list, enumerate. now rewrite source_lines_from. Qed.

(** Positions are append order: the sources a later write appends are
    numbered after all the earlier ones. *)
Lemma citation_lines_app (k : nat) (a b : list SearchResult) :
  citation_lines k (a ++ b)
  = (citation_lines k a ++ citation_lines (k + List.length a) b)%list.
Proof.
  revert k. induction a as [|x a IH]; intros k.
  - cbn [app citation_lines List.length]. now rewrite Nat.add_0_r.
  - cbn [app citation_lines List.length]. rewrite IH.
    now replace (S k + List.length a)%nat with (k + S (List.length a))%nat by lia.
Qed.

(** C9. The summary block of every [web_research] invocation numbers the
    results of that search alone, from [Source [1]] upwards, whatever the
    branch and whatever the state; the citation list of [finalize_answer]
    numbers the sources by their position in [sources_gathered].  After a
    wave of two branches both summaries therefore carry [Source [1]], and
    the page the second summary calls [Source [1]] is entry [[2]] of the
    citation list. *)
Theorem summaries_numbered_per_branch :
  (forall (w : Providers) (branch : WebSearchState.t) (config : Configuration.t),
     web_research w branch config
     = Ok {| Update.messages := None;
             Update.search_query := Some [WebSearchState.search_query branch];
             Update.web_research_result :=
               Some [source_blocks 0
                       (tavily_invoke w (WebSearchState.search_query branch))];
             Update.sources_gathered :=
               Some (tavily_invoke w (WebSearchState.search_query branch));
             Update.query_list := None;
             Update.research_loop_count := None; Update.is_sufficient := None;
             Update.knowledge_gap := None; Update.follow_up_queries := None |})
  /\ (forall (res : SearchResult) (rest : list SearchResult),
        exists tail,
          format_results (res :: rest) = "Source [1]: " ++ title res ++ tail)
  /\ (forall state : OverallState.t,
        source_list state
        = join nl (citation_lines 0 (OverallState.sources_gathered state)))
  /\ OverallState.web_research_result sample_after_wave
     = [ "Source [1]: Page on a" ++ nl ++ "URL: https://example.org/a" ++ nl
           ++ "Content: text" ++ nl ++ nl
       ; "Source [1]: Page on b" ++ nl ++ "URL: https://example.org/b" ++ nl
           ++ "Content: text" ++ nl ++ nl ]
  /\ source_list sample_after_wave
     = "[1]: [Page on a](https://example.org/a)" ++ nl
         ++ "[2]: [Page on b](https://example.org/b)"
  /\ exists prompt,
       finalize_answer_prompt (sample_providers [] []) sample_after_wave = Ok prompt
       /\ contains prompt "Source [1]: Page on a" = true
       /\ contains prompt "Source [1]: Page on b" = true
       /\ contains prompt "Source [2]" = false.
Proof.
  split; [| split; [| split; [| split; [| split]]]].
  6: { eexists. split; [vm_compute; reflexivity |].
       repeat split; vm_compute; reflexivity. }
  - intros w branch config. unfold web_research.
    now rewrite format_results_blocks.
  - intros res rest. rewrite format_results_blocks.
    cbn [source_blocks]. eexists.
    change (str_int (Z.of_nat 0 + 1)) with "1".
    rewrite !append_assoc. reflexivity.
  - exact source_list_lines.
  - vm_compute. reflexivity.
  - vm_compute. reflexivity.
Qed.

(** ** finalize_answer *)

(** The citation list is built from [sources_gathered] by position. *)
Lemma finalize_answer_ok (w : Providers) (state : OverallState.t)
    (config : Configuration.t) :
  exists prompt,
    finalize_answer_prompt w state = Ok prompt
    /\ finalize_answer w state config
       = Ok {| Update.messages :=
                 Some [AIMessage (invoke_text w (answer_llm state config) prompt)];
               Update.search_query := None;
               Update.web_research_result := None;
               Update.sources_gathered := Some (OverallState.sources_gathered state);
               Update.query_list := None;
               Update.research_loop_count := None; Update.is_sufficient := None;
               Update.knowledge_gap := None; Update.follow_up_queries := None |}.
Proof.
  destruct (finalize_answer_prompt_ok w state) as (_ & prompt & Hp).
  exists prompt. split; [exact Hp |].
  unfold finalize_answer. now rewrite Hp.
Qed.

(** C5, as the code behaves.  [answer_instructions] has no [source_list]
    field, so the keyword argument [source_list=source_list] is dropped by
    [format]: the prompt sent to the model is the same whatever
    [sources_gathered] holds.  On the state after the sample wave the
    citation list is two numbered lines and neither line occurs in the
    prompt; the summaries do. *)
Theorem finalize_answer_prompt_omits_citation_list :
  ~ In "source_list" (fields answer_instructions)
  /\ In "summaries" (fields answer_instructions)
  /\ (forall (w : Providers) (state : OverallState.t),
        finalize_answer_prompt w state
        = format answer_instructions
            [ ("current_date", get_current_date w)
            ; ("research_topic", get_research_topic w (OverallState.messages state))
            ; ("summaries",
               join (nl ++ "---" ++ nl ++ nl)
                    (OverallState.web_research_result state)) ])
  /\ source_list sample_after_wave
     = "[1]: [Page on a](https://example.org/a)" ++ nl
         ++ "[2]: [Page on b](https://example.org/b)"
  /\ exists prompt,
       finalize_answer_prompt (sample_providers [] []) sample_after_wave = Ok prompt
       /\ contains prompt "[1]: [Page on a](https://example.org/a)" = false
       /\ contains prompt "[2]: [Page on b](https://example.org/b)" = false
       /\ contains prompt "Source [1]: Page on b" = true.
Proof.
  split; [| split; [| split; [| split]]].
  - cbn [fields answer_instructions]. intros [H | [H | [H | []]]]; discriminate H.
  - cbn [fields answer_instructions]. right; right; left; reflexivity.
  - intros w state. apply finalize_answer_prompt_ok.
  - vm_compute. reflexivity.
  - eexists. split; [vm_compute; reflexivity |].
    repeat split; vm_compute; reflexivity.
Qed.

(** ** Merging *)

Lemma apply_updates_results (s : OverallState.t) (us : list Update.t) :
  OverallState.web_research_result (apply_updates s us)
  = (OverallState.web_research_result s ++ flat_map added_results us)%list.
Proof.
  unfold apply_updates. revert s. induction us as [|u us IH]; intros s.
  - cbn [fold_left flat_map]. now rewrite app_nil_r.
  - cbn [fold_left flat_map]. rewrite IH.
    cbn [apply_update OverallState.web_research_result].
    now rewrite <- app_assoc.
Qed.

Lemma apply_updates_sources (s : OverallState.t) (us : list Update.t) :
  OverallState.sources_gathered (apply_updates s us)
  = (OverallState.sources_gathered s ++ flat_map added_sources us)%list.
Proof.
  unfold apply_updates. revert s. induction us as [|u us IH]; intros s.
  - cbn [fold_left flat_map]. now rewrite app_nil_r.
  - cbn [fold_left flat_map]. rewrite IH.
    cbn [apply_update OverallState.sources_gathered].
    now rewrite <- app_assoc.
Qed.

Lemma apply_updates_max_research_loops (s : OverallState.t) (us : list Update.t) :
  OverallState.max_research_loops (apply_updates s us)
  = OverallState.max_research_loops s.
Proof.
  unfold apply_updates. revert s. induction us as [|u us IH]; intros s;
    [reflexivity | cbn [fold_left]; now rewrite IH].
Qed.

(** ** One fan-out wave *)

Lemma run_tasks_wave ws state config i qs :
  run_tasks ws state config i (map Push (dispatch qs)) = Ok (wave_updates ws i qs).
Proof.
  revert i. induction qs as [|q qs IH]; intros i.
  - reflexivity.
  - cbn [dispatch map run_tasks wave_updates]. fold (dispatch qs).
    cbn [run_task send_node send_arg]. rewrite String.eqb_refl.
    unfold web_research. cbn [bind WebSearchState.search_query].
    now rewrite IH.
Qed.

Lemma wave_added_results ws i qs :
  flat_map added_results (wave_updates ws i qs) = map format_results (wave_found ws i qs).
Proof.
  revert i. induction qs as [|q qs IH]; intros i; [reflexivity |].
  cbn [wave_updates wave_found flat_map map]. rewrite IH. reflexivity.
Qed.

Lemma wave_added_sources ws i qs :
  flat_map added_sources (wave_updates ws i qs) = List.concat (wave_found ws i qs).
Proof.
  revert i. induction qs as [|q qs IH]; intros i; [reflexivity |].
  cbn [wave_updates wave_found flat_map List.concat]. rewrite IH. reflexivity.
Qed.

Lemma wave_found_length ws i qs : List.length (wave_found ws i qs) = List.length qs.
Proof.
  revert i. induction qs as [|q qs IH]; intros i; [reflexivity |].
  cbn [wave_found List.length]. now rewrite IH.
Qed.

(** ** Accumulators over a run *)

Lemma extends_refl {A} (l : list A) : extends l l.
Proof. exists []. now rewrite app_nil_r. Qed.

Lemma extends_trans {A} (a b c : list A) : extends a b -> extends b c -> extends a c.
Proof.
  intros [x ->] [y ->]. exists (x ++ y)%list. now rewrite app_assoc.
Qed.

Lemma superstep_extends world config r r' :
  superstep world config r = Ok r' ->
  extends (OverallState.web_research_result (state r))
          (OverallState.web_research_result (state r'))
  /\ extends (OverallState.sources_gathered (state r))
             (OverallState.sources_gathered (state r')).
Proof.
  unfold superstep. intros H.
  destruct (run_tasks _ _ _ _ _) as [us|e]; [| discriminate].
  cbn [bind] in H.
  destruct (next_tasks _ _ _) as [nxt|e]; [| discriminate].
  injection H as <-. cbn [state].
  rewrite apply_updates_results, apply_updates_sources.
  split; eexists; reflexivity.
Qed.

Lemma run_extends fuel world config r r' :
  run fuel world config r = Ok r' ->
  extends (OverallState.web_research_result (state r))
          (OverallState.web_research_result (state r'))
  /\ extends (OverallState.sources_gathered (state r))
             (OverallState.sources_gathered (state r')).
Proof.
  revert r. induction fuel as [|fuel IH]; intros r H.
  - injection H as <-. split; apply extends_refl.
  - cbn [run] in H. destruct (pending r) eqn:Hp.
    + injection H as <-. split; apply extends_refl.
    + destruct (superstep world config r) as [r1|e] eqn:Hs; [| discriminate].
      cbn [bind] in H.
      destruct (superstep_extends _ _ _ _ Hs) as [A1 B1].
      destruct (IH _ H) as [A2 B2].
      split; eapply extends_trans; eauto.
Qed.

(** C3 as stated fails for [sources_gathered]: a wave of one branch whose
    search finds two pages adds two entries, not one. *)
Lemma sources_do_not_grow_by_branch_count :
  ~ (forall (ws : nat -> Providers) (state : OverallState.t)
            (config : Configuration.t) (qs : list string) (us : list Update.t),
       run_tasks ws state config 0 (map Push (dispatch qs)) = Ok us ->
       List.length (OverallState.sources_gathered (apply_updates state us))
       = (List.length (OverallState.sources_gathered state) + List.length qs)%nat).
Proof.
  intros H.
  specialize (H (fun _ => two_page_providers) (initial_state sample_input)
                sample_config ["a"] _ eq_refl).
  vm_compute in H. discriminate H.
Qed.

(** C3, amended.  A wave of [k] branches adds exactly [k] entries to
    [web_research_result], one summary per branch, and to
    [sources_gathered] every page its searches found (their total number,
    not [k]).  Whatever the order in which the branches' dictionaries are
    merged, the old entries stay in place as a prefix and the added entries
    are the same up to order.  Over a whole run both accumulators only ever
    get longer at the end. *)
Theorem wave_appends
    (ws : nat -> Providers) (state0 : OverallState.t) (config : Configuration.t)
    (qs : list string) (completed : list Update.t)
    (fuel : nat) (world : World) (r r' : Run) :
  Permutation (wave_updates ws 0 qs) completed ->
  run fuel world config r = Ok r' ->
  run_tasks ws state0 config 0 (map Push (dispatch qs)) = Ok (wave_updates ws 0 qs)
  /\ (exists new_results new_sources,
        OverallState.web_research_result (apply_updates state0 completed)
        = (OverallState.web_research_result state0 ++ new_results)%list
        /\ OverallState.sources_gathered (apply_updates state0 completed)
           = (OverallState.sources_gathered state0 ++ new_sources)%list
        /\ List.length new_results = List.length qs
        /\ List.length new_sources
           = list_sum (map (@List.length SearchResult) (wave_found ws 0 qs))
        /\ Permutation new_results (map format_results (wave_found ws 0 qs))
        /\ Permutation new_sources (List.concat (wave_found ws 0 qs)))
  /\ extends (OverallState.web_research_result (state r))
             (OverallState.web_research_result (state r'))
  /\ extends (OverallState.sources_gathered (state r))
             (OverallState.sources_gathered (state r')).
Proof.
  intros Hperm Hrun.
  split; [apply run_tasks_wave |].
  split; [| exact (run_extends _ _ _ _ _ Hrun)].
  exists (flat_map added_results completed), (flat_map added_sources completed).
  assert (Hr : Permutation (flat_map added_results completed)
                 (map format_results (wave_found ws 0 qs))).
  { rewrite <- wave_added_results. symmetry.
    now apply Permutation_flat_map. }
  assert (Hs : Permutation (flat_map added_sources completed)
                 (List.concat (wave_found ws 0 qs))).
  { rewrite <- wave_added_sources. symmetry.
    now apply Permutation_flat_map. }
  repeat split.
  - apply apply_updates_results.
  - apply apply_updates_sources.
  - rewrite (Permutation_length Hr), length_map. apply wave_found_length.
  - rewrite (Permutation_length Hs). apply length_concat.
  - exact Hr.
  - exact Hs.
Qed.

Lemma wave_appends_witness :
  let ws := fun _ : nat => sample_providers [] [] in
  let state0 := sample_after_wave in
  let completed := rev (wave_updates ws 0 ["c"; "d"; "e"]) in
  exists new_results new_sources,
    OverallState.web_research_result (apply_updates state0 completed)
    = (OverallState.web_research_result state0 ++ new_results)%list
    /\ OverallState.sources_gathered (apply_updates state0 completed)
       = (OverallState.sources_gathered state0 ++ new_sources)%list
    /\ List.length new_results = 3%nat
    /\ Permutation new_results (map format_results (wave_found ws 0 ["c"; "d"; "e"])).
Proof.
  intros ws state0 completed.
  destruct (wave_appends ws state0 sample_config ["c"; "d"; "e"] completed
              10 (sample_world ["a"; "b"] ["c"]) (start sample_input)
              (match run 10 (sample_world ["a"; "b"] ["c"]) sample_config
                       (start sample_input) with
               | Ok r => r
               | Raise _ => start sample_input
               end))
    as (_ & (nr & ns & H1 & H2 & H3 & _ & H5 & _) & _).
  - apply Permutation_rev.
  - vm_compute. reflexivity.
  - exists nr, ns. repeat split; assumption.
Defined.

(** ** What each node returns *)

Lemma generate_query_ok (w : Providers) (state : OverallState.t)
    (config : Configuration.t) :
  exists prompt,
    generate_query_prompt w state config = Ok prompt
    /\ generate_query w state config
       = Ok {| Update.messages := None; Update.search_query := None;
               Update.web_research_result := None; Update.sources_gathered := None;
               Update.query_list :=
                 Some (query (invoke_query_list w
                                (get_llm config
                                   (Configuration.query_generator_model config))
                                prompt));
               Update.research_loop_count := None; Update.is_sufficient := None;
               Update.knowledge_gap := None; Update.follow_up_queries := None |}.
Proof.
  destruct (generate_query_prompt_ok w state config) as (pre & post & Hp).
  eexists. split; [exact Hp |].
  unfold generate_query. now rewrite Hp.
Qed.

Lemma reflection_ok (w : Providers) (state : OverallState.t)
    (config : Configuration.t) :
  exists prompt,
    reflection_prompt w state = Ok prompt
    /\ reflection w state config
       = let result := invoke_reflection w (reflection_llm state config) prompt in
         Ok {| Update.messages := None; Update.search_query := None;
               Update.web_research_result := None; Update.sources_gathered := None;
               Update.query_list := None;
               Update.research_loop_count :=
                 Some (get_default (OverallState.research_loop_count state) 0 + 1)%Z;
               Update.is_sufficient := Some (r_is_sufficient result);
               Update.knowledge_gap := Some (r_knowledge_gap result);
               Update.follow_up_queries := Some (r_follow_up_queries result) |}.
Proof.
  destruct (reflection_prompt_ok w state) as (_ & prompt & Hp).
  exists prompt. split; [exact Hp |].
  unfold reflection.
  change (reflection_prompt w (reflection_state state)) with (reflection_prompt w state).
  rewrite Hp. reflexivity.
Qed.

(** ** Model and query-count overrides *)

Lemma or_else_spec (override : option string) (default : string) :
  or_else override default
  = match override with
    | None => default
    | Some s => if s =? EmptyString then default else s
    end.
Proof. destruct override as [[|c s]|]; reflexivity. Qed.

(** C10. [reflection] and [finalize_answer] call the model named by the
    state's override, and the configured model whenever that override is
    missing or the empty string (Python's [or]): the dictionaries they
    return are built from the reply of exactly that model.
    [generate_query] asks for the configured number of queries only when
    [initial_search_query_count] is missing ([is None]) and for every
    present value otherwise, zero included: that number is written into
    the prompt its model call receives. *)
Theorem override_fallbacks
    (w : Providers) (state : OverallState.t) (config : Configuration.t) :
  let reflection_model :=
    match OverallState.reflection_model state with
    | None => Configuration.reflection_model config
    | Some s => if s =? EmptyString then Configuration.reflection_model config else s
    end in
  let answer_model :=
    match OverallState.answer_model state with
    | None => Configuration.answer_model config
    | Some s => if s =? EmptyString then Configuration.answer_model config else s
    end in
  let count :=
    match OverallState.initial_search_query_count state with
    | None => Configuration.number_of_initial_queries config
    | Some n => n
    end in
  (exists prompt,
     reflection_prompt w state = Ok prompt
     /\ reflection w state config
        = let result := invoke_reflection w (get_llm config reflection_model) prompt in
          Ok {| Update.messages := None; Update.search_query := None;
                Update.web_research_result := None; Update.sources_gathered := None;
                Update.query_list := None;
                Update.research_loop_count :=
                  Some (get_default (OverallState.research_loop_count state) 0 + 1)%Z;
                Update.is_sufficient := Some (r_is_sufficient result);
                Update.knowledge_gap := Some (r_knowledge_gap result);
                Update.follow_up_queries := Some (r_follow_up_queries result) |})
  /\ (exists prompt,
        finalize_answer_prompt w state = Ok prompt
        /\ finalize_answer w state config
           = Ok {| Update.messages :=
                     Some [AIMessage (invoke_text w (get_llm config answer_model) prompt)];
                   Update.search_query := None;
                   Update.web_research_result := None;
                   Update.sources_gathered := Some (OverallState.sources_gathered state);
                   Update.query_list := None;
                   Update.research_loop_count := None; Update.is_sufficient := None;
                   Update.knowledge_gap := None; Update.follow_up_queries := None |})
  /\ (exists pre post,
        let prompt :=
          pre ++ "Don't produce more than " ++ str_int count ++ " queries." ++ post in
        generate_query_prompt w state config = Ok prompt
        /\ generate_query w state config
           = Ok {| Update.messages := None; Update.search_query := None;
                   Update.web_research_result := None; Update.sources_gathered := None;
                   Update.query_list :=
                     Some (query (invoke_query_list w
                                    (get_llm config
                                       (Configuration.query_generator_model config))
                                    prompt));
                   Update.research_loop_count := None; Update.is_sufficient := None;
                   Update.knowledge_gap := None; Update.follow_up_queries := None |})
  /\ model (reflection_llm state config) = reflection_model
  /\ model (answer_llm state config) = answer_model
  /\ OverallState.initial_search_query_count (generate_query_state state config)
     = Some count
  /\ or_else (Some EmptyString) (Configuration.reflection_model config)
     = Configuration.reflection_model config
  /\ OverallState.initial_search_query_count
       (generate_query_state
          (OverallState.set_initial_search_query_count 0 state) config)
     = Some 0%Z.
Proof.
  cbn zeta.
  assert (Hr : reflection_llm state config
               = get_llm config
                   match OverallState.reflection_model state with
                   | None => Configuration.reflection_model config
                   | Some s =>
                       if s =? EmptyString then Configuration.reflection_model config
                       else s
                   end).
  { unfold reflection_llm. now rewrite or_else_spec. }
  assert (Ha : answer_llm state config
               = get_llm config
                   match OverallState.answer_model state with
                   | None => Configuration.answer_model config
                   | Some s =>
                       if s =? EmptyString then Configuration.answer_model config
                       else s
                   end).
  { unfold answer_llm. now rewrite or_else_spec. }
  split; [| split; [| split; [| split; [| split; [| split; [| split]]]]]].
  - destruct (reflection_ok w state config) as (prompt & Hp & Hrefl).
    exists prompt. split; [exact Hp |]. rewrite Hrefl, Hr. reflexivity.
  - destruct (finalize_answer_ok w state config) as (prompt & Hp & Hfin).
    exists prompt. split; [exact Hp |]. rewrite Hfin, Ha. reflexivity.
  - destruct (generate_query_prompt_ok w state config) as (pre & post & Hp).
    exists pre, post. cbn zeta. fold (number_queries state config).
    split; [exact Hp |]. unfold generate_query. now rewrite Hp.
  - now rewrite Hr.
  - now rewrite Ha.
  - rewrite generate_query_state_count. reflexivity.
  - reflexivity.
  - reflexivity.
Qed.

(** ** The loop counter *)

Lemma run_task_count w state config t u :
  run_task w state config t = Ok u ->
  writes_count (get_default (OverallState.research_loop_count state) 0 + 1)%Z u.
Proof.
  destruct t as [name | s]; cbn [run_task].
  - destruct (name =? "generate_query").
    { destruct (generate_query_ok w state config) as (p & _ & ->).
      intros [= <-]. now left. }
    destruct (name =? "reflection").
    { destruct (reflection_ok w state config) as (p & _ & ->).
      intros [= <-]. now right. }
    destruct (name =? "finalize_answer").
    { destruct (finalize_answer_ok w state config) as (p & _ & ->).
      intros [= <-]. now left. }
    discriminate.
  - destruct (send_node s =? "web_research"); [| discriminate].
    unfold web_research. intros [= <-]. now left.
Qed.

Lemma run_tasks_count ws state config i ts us :
  run_tasks ws state config i ts = Ok us ->
  Forall (writes_count (get_default (OverallState.research_loop_count state) 0 + 1)%Z) us.
Proof.
  revert i us. induction ts as [|t ts IH]; intros i us H.
  - injection H as <-. constructor.
  - cbn [run_tasks] in H.
    destruct (run_task (ws i) state config t) as [u|e] eqn:Ht; [| discriminate].
    cbn [bind] in H.
    destruct (run_tasks ws state config (S i) ts) as [us'|e] eqn:Hts; [| discriminate].
    injection H as <-. constructor; [eapply run_task_count; eauto | eapply IH; eauto].
Qed.

Lemma apply_updates_count (s : OverallState.t) (us : list Update.t) (c : Z) :
  Forall (writes_count c) us ->
  OverallState.research_loop_count (apply_updates s us)
  = OverallState.research_loop_count s
  \/ OverallState.research_loop_count (apply_updates s us) = Some c.
Proof.
  unfold apply_updates. intros H. revert s.
  induction H as [|u us Hu _ IH]; intros s; [now left |].
  cbn [fold_left]. destruct (IH (apply_update s u)) as [E | E]; rewrite E.
  - cbn [apply_update OverallState.research_loop_count].
    destruct Hu as [-> | ->]; [now left | now right].
  - now right.
Qed.

Lemma superstep_count world config r r' :
  superstep world config r = Ok r' ->
  loop_count r' = loop_count r \/ loop_count r' = (loop_count r + 1)%Z.
Proof.
  unfold superstep. intros H.
  destruct (run_tasks _ _ _ _ _) as [us|e] eqn:Hus; [| discriminate].
  cbn [bind] in H.
  destruct (next_tasks _ _ _) as [nxt|e]; [| discriminate].
  injection H as <-. unfold loop_count. cbn [state].
  destruct (apply_updates_count (state r) us _ (run_tasks_count _ _ _ _ _ _ Hus))
    as [-> | ->]; [now left | now right].
Qed.

Lemma run_count_monotone fuel world config r r' :
  run fuel world config r = Ok r' -> (loop_count r <= loop_count r')%Z.
Proof.
  revert r. induction fuel as [|fuel IH]; intros r H.
  - injection H as <-. lia.
  - cbn [run] in H. destruct (pending r).
    + injection H as <-. lia.
    + destruct (superstep world config r) as [r1|e] eqn:Hs; [| discriminate].
      cbn [bind] in H. specialize (IH _ H).
      destruct (superstep_count _ _ _ _ Hs); lia.
Qed.

(** C6. Along every run [research_loop_count] (read as 0 while missing)
    never decreases.  The dictionaries returned by [generate_query],
    [web_research] and [finalize_answer] have no [research_loop_count]
    key, so merging them leaves the counter as it was; the dictionary
    returned by [reflection] sets it to the previous value plus one. *)
Theorem loop_count_changed_by_reflection_only
    (fuel : nat) (world : World) (config : Configuration.t) (r r' : Run) :
  run fuel world config r = Ok r' ->
  (loop_count r <= loop_count r')%Z
  /\ (forall w state, exists u,
        generate_query w state config = Ok u
        /\ Update.research_loop_count u = None
        /\ OverallState.research_loop_count (apply_update state u)
           = OverallState.research_loop_count state)
  /\ (forall w branch state, exists u,
        web_research w branch config = Ok u
        /\ Update.research_loop_count u = None
        /\ OverallState.research_loop_count (apply_update state u)
           = OverallState.research_loop_count state)
  /\ (forall w state, exists u,
        finalize_answer w state config = Ok u
        /\ Update.research_loop_count u = None
        /\ OverallState.research_loop_count (apply_update state u)
           = OverallState.research_loop_count state)
  /\ (forall w state, exists u,
        reflection w state config = Ok u
        /\ Update.research_loop_count u
           = Some (get_default (OverallState.research_loop_count state) 0 + 1)%Z
        /\ OverallState.research_loop_count (apply_update state u)
           = Some (get_default (OverallState.research_loop_count state) 0 + 1)%Z).
Proof.
  intros Hrun. split; [exact (run_count_monotone _ _ _ _ _ Hrun) |].
  split; [| split; [| split]].
  - intros w state. destruct (generate_query_ok w state config) as (p & _ & ->).
    eexists. repeat split.
  - intros w branch state. unfold web_research. eexists. repeat split.
  - intros w state. destruct (finalize_answer_ok w state config) as (p & _ & ->).
    eexists. repeat split.
  - intros w state. destruct (reflection_ok w state config) as (p & _ & ->).
    eexists. repeat split.
Qed.

Lemma loop_count_changed_by_reflection_only_witness :
  (loop_count (start sample_input) <= 2)%Z
  /\ exists u,
       reflection (sample_providers [] []) sample_after_wave sample_config = Ok u
       /\ Update.research_loop_count u = Some 1%Z.
Proof.
  destruct (loop_count_changed_by_reflection_only
              10 (sample_world ["a"; "b"] ["c"]) sample_config
              (start sample_input)
              (match run 10 (sample_world ["a"; "b"] ["c"]) sample_config
                       (start sample_input) with
               | Ok r => r
               | Raise _ => start sample_input
               end))
    as (Hle & _ & _ & _ & Hrefl).
  - vm_compute. reflexivity.
  - split.
    + exact Hle.
    + destruct (Hrefl (sample_providers [] []) sample_after_wave) as (u & Hu & Hc & _).
      exists u. split; [exact Hu | exact Hc].
Defined.

(** ** Following the edges of [builder] *)

Lemma next_after_generate_query state config qs :
  OverallState.query_list state = Some qs ->
  next_tasks state config ["generate_query"] = Ok (map Push (dispatch qs)).
Proof.
  intros H. cbn [next_tasks]. unfold routed_targets.
  change (lookup_edge "generate_query" conditional_edges)
    with (Some (nth 0 (map snd conditional_edges) (evaluate_research, []))).
  cbn [nth map conditional_edges snd].
  unfold continue_to_web_research. rewrite H. cbn [item bind].
  change (fixed_targets "generate_query") with (@nil Task).
  cbn [app]. now rewrite app_nil_r.
Qed.

Lemma next_after_web_research state config :
  next_tasks state config ["web_research"] = Ok [Pull "reflection"].
Proof. reflexivity. Qed.

Lemma next_after_finalize_answer state config :
  next_tasks state config ["finalize_answer"] = Ok [].
Proof. reflexivity. Qed.

Lemma next_after_reflection state config :
  next_tasks state config ["reflection"]
  = r <- evaluate_research state config ;;
    match r with
    | ToNode dest =>
        target <- item dest
                    (lookup_kw dest [ ("web_research", "web_research")
                                    ; ("finalize_answer", "finalize_answer") ]) ;;
        Ok [Pull target]
    | Fanout sends => Ok (map Push sends)
    end.
Proof.
  cbn [next_tasks]. unfold routed_targets.
  change (lookup_edge "reflection" conditional_edges)
    with (Some (nth 1 (map snd conditional_edges) (evaluate_research, []))).
  cbn [nth map conditional_edges snd].
  change (fixed_targets "reflection") with (@nil Task).
  destruct (evaluate_research state config) as [[dest|sends]|e];
    cbn [bind app]; try reflexivity.
  - destruct (item dest _); cbn [bind]; reflexivity.
  - now rewrite app_nil_r.
Qed.

Lemma wave_names q qs :
  nodup string_dec (map task_name (map Push (dispatch (q :: qs)))) = ["web_research"].
Proof.
  induction qs as [|q' qs IH].
  - reflexivity.
  - cbn [dispatch map task_name send_node] in *.
    cbn [nodup]. destruct (in_dec string_dec "web_research" _) as [i | n].
    + exact IH.
    + exfalso. apply n. now left.
Qed.

Lemma wave_keeps_count ws i qs state :
  OverallState.research_loop_count (apply_updates state (wave_updates ws i qs))
  = OverallState.research_loop_count state.
Proof.
  unfold apply_updates. revert i state.
  induction qs as [|q qs IH]; intros i state; [reflexivity |].
  cbn [wave_updates fold_left]. now rewrite IH.
Qed.

(** *** One step from each kind of pending work *)

Lemma superstep_generate_query world config st h :
  exists prompt,
    let qs := query (invoke_query_list (world (List.length h) 0%nat)
                       (get_llm config (Configuration.query_generator_model config))
                       prompt) in
    superstep world config
      {| pending := [Pull "generate_query"]; state := st; history := h |}
    = Ok {| pending := map Push (dispatch qs);
            state :=
              apply_update st
                {| Update.messages := None; Update.search_query := None;
                   Update.web_research_result := None;
                   Update.sources_gathered := None;
                   Update.query_list := Some qs;
                   Update.research_loop_count := None;
                   Update.is_sufficient := None;
                   Update.knowledge_gap := None;
                   Update.follow_up_queries := None |};
            history := (h ++ [[Pull "generate_query"]])%list |}.
Proof.
  destruct (generate_query_ok (world (List.length h) 0%nat) st config)
    as (prompt & _ & Hg).
  exists prompt. cbn zeta. unfold superstep.
  cbn [pending state history run_tasks run_task String.eqb Ascii.eqb Bool.eqb].
  rewrite Hg. cbn [bind apply_updates fold_left map task_name].
  change (nodup string_dec ["generate_query"]) with ["generate_query"].
  erewrite next_after_generate_query by reflexivity.
  reflexivity.
Qed.

Lemma superstep_web_research world config st h q qs :
  superstep world config
    {| pending := map Push (dispatch (q :: qs)); state := st; history := h |}
  = Ok {| pending := [Pull "reflection"];
          state := apply_updates st (wave_updates (world (List.length h)) 0 (q :: qs));
          history := (h ++ [map Push (dispatch (q :: qs))])%list |}.
Proof.
  unfold superstep. cbn [pending state history].
  rewrite run_tasks_wave. cbn [bind].
  rewrite wave_names, next_after_web_research. reflexivity.
Qed.

Lemma superstep_reflection world config st h :
  exists prompt,
    let result := invoke_reflection (world (List.length h) 0%nat)
                    (reflection_llm st config) prompt in
    let count := (get_default (OverallState.research_loop_count st) 0 + 1)%Z in
    let max_research_loops :=
      get_default (OverallState.max_research_loops st)
                  (Configuration.max_research_loops config) in
    superstep world config
      {| pending := [Pull "reflection"]; state := st; history := h |}
    = Ok {| pending :=
              if r_is_sufficient result || (count >=? max_research_loops)%Z
              then [Pull "finalize_answer"]
              else map Push (dispatch (r_follow_up_queries result));
            state :=
              apply_update st
                {| Update.messages := None; Update.search_query := None;
                   Update.web_research_result := None;
                   Update.sources_gathered := None;
                   Update.query_list := None;
                   Update.research_loop_count := Some count;
                   Update.is_sufficient := Some (r_is_sufficient result);
                   Update.knowledge_gap := Some (r_knowledge_gap result);
                   Update.follow_up_queries := Some (r_follow_up_queries result) |};
            history := (h ++ [[Pull "reflection"]])%list |}.
Proof.
  destruct (reflection_ok (world (List.length h) 0%nat) st config)
    as (prompt & _ & Hr).
  exists prompt. cbn zeta. unfold superstep.
  cbn [pending state history run_tasks run_task String.eqb Ascii.eqb Bool.eqb].
  rewrite Hr. cbn [bind apply_updates fold_left map task_name].
  change (nodup string_dec ["reflection"]) with ["reflection"].
  rewrite next_after_reflection.
  destruct (r_is_sufficient _).
  - erewrite evaluate_research_finalize by reflexivity.
    reflexivity.
  - erewrite evaluate_research_insufficient by reflexivity.
    cbn [apply_update OverallState.max_research_loops
         OverallState.follow_up_queries overwrite Update.follow_up_queries
         item bind orb].
    destruct (_ >=? _)%Z; reflexivity.
Qed.

Lemma superstep_finalize_answer world config st h :
  exists u,
    finalize_answer (world (List.length h) 0%nat) st config = Ok u
    /\ superstep world config
         {| pending := [Pull "finalize_answer"]; state := st; history := h |}
       = Ok {| pending := [];
               state := apply_update st u;
               history := (h ++ [[Pull "finalize_answer"]])%list |}.
Proof.
  destruct (finalize_answer_ok (world (List.length h) 0%nat) st config)
    as (prompt & _ & Hf).
  eexists. split; [exact Hf |]. unfold superstep.
  cbn [pending state history run_tasks run_task String.eqb Ascii.eqb Bool.eqb].
  rewrite Hf. reflexivity.
Qed.

(** ** The research loop *)

Lemma get_default_some {A} (a d : A) : get_default (Some a) d = a.
Proof. reflexivity. Qed.

Lemma count_waves_snoc (h : list (list Task)) (step : list Task) :
  count_waves (h ++ [step]) = (count_waves h + (if is_wave step then 1 else 0))%nat.
Proof.
  unfold count_waves. rewrite filter_app, length_app. cbn [filter].
  destruct (is_wave step); reflexivity.
Qed.

Lemma run_over fuel world config r :
  pending r = [] -> run fuel world config r = Ok r.
Proof. intros H. destruct fuel; cbn [run]; [| rewrite H]; reflexivity. Qed.

Section LoopSteps.
Variable world : World.
Variable config : Configuration.t.
Variable input : RunInput.

Lemma bound_positive : (1 <= loop_bound input config)%Z.
Proof. unfold loop_bound. lia. Qed.

Lemma on_track_start : on_track world config input (start input).
Proof.
  change (start input)
    with {| pending := [Pull "generate_query"]; state := initial_state input;
            history := [] |}.
  apply track_generate_query; reflexivity.
Qed.

Lemma on_track_bounds r :
  on_track world config input r ->
  (0 <= loop_count r <= loop_bound input config)%Z
  /\ waves r <= Z.to_nat (loop_bound input config).
Proof.
  pose proof bound_positive as Hb.
  intros H; destruct H as [st h Hc Hm Hw | st h q qs Hc Hm Hw | st h Hc Hm Hw
                          | st h Hc Hm Hw | st h Hc Hm Hw Hf];
    unfold loop_count, waves; cbn [state history];
    fold (count_of st); fold (count_waves h); rewrite ?Hw.
  - unfold count_of. rewrite Hc. cbn [get_default]. lia.
  - lia.
  - lia.
  - lia.
  - lia.
Qed.

Lemma on_track_step r :
  on_track world config input r -> pending r <> [] ->
  exists r', superstep world config r = Ok r'
             /\ on_track world config input r'
             /\ remaining config input r' < remaining config input r.
Proof.
  pose proof bound_positive as Hb.
  intros H; destruct H as [st h Hc Hm Hw | st h q qs Hc Hm Hw | st h Hc Hm Hw
                          | st h Hc Hm Hw | st h Hc Hm Hw Hf];
    cbn [pending]; intros Hp.
  - (* generate_query *)
    destruct (superstep_generate_query world config st h) as (prompt & Hs).
    cbn zeta in Hs. rewrite Hs. clear Hs. eexists. split; [reflexivity |].
    destruct (query _) as [|q qs] eqn:Hq.
    + split.
      * apply track_over.
        -- unfold count_of. cbn [apply_update OverallState.research_loop_count
                                 overwrite Update.research_loop_count].
           rewrite Hc. cbn [get_default]. lia.
        -- exact Hm.
        -- rewrite count_waves_snoc. cbn. unfold count_of.
           cbn [apply_update OverallState.research_loop_count
                overwrite Update.research_loop_count].
           rewrite Hc, Hw. reflexivity.
        -- intros Hne. exfalso.
           destruct (Hne (List.length h) 0%nat
                       (get_llm config (Configuration.query_generator_model config))
                       prompt) as [Hn _].
           now apply Hn.
      * unfold remaining. cbn. lia.
    + split.
      * apply track_web_research.
        -- unfold count_of. cbn [apply_update OverallState.research_loop_count
                                 overwrite Update.research_loop_count].
           rewrite Hc. cbn [get_default]. lia.
        -- exact Hm.
        -- rewrite count_waves_snoc. cbn. unfold count_of.
           cbn [apply_update OverallState.research_loop_count
                overwrite Update.research_loop_count].
           rewrite Hc, Hw. reflexivity.
      * unfold remaining, loop_count.
        cbn [pending state map dispatch String.eqb Ascii.eqb Bool.eqb
             apply_update OverallState.research_loop_count
             overwrite Update.research_loop_count].
        rewrite Hc. cbn [get_default]. lia.
  - (* a wave of web_research *)
    rewrite superstep_web_research. eexists. split; [reflexivity |].
    split.
    + apply track_reflection.
      * unfold count_of. rewrite wave_keeps_count. exact Hc.
      * unfold keeps_override. rewrite apply_updates_max_research_loops. exact Hm.
      * rewrite count_waves_snoc. unfold count_of. rewrite wave_keeps_count.
        fold (count_of st). rewrite Hw. cbn. lia.
    + unfold remaining, loop_count.
      cbn [pending state map dispatch String.eqb Ascii.eqb Bool.eqb].
      rewrite wave_keeps_count. lia.
  - (* reflection *)
    destruct (superstep_reflection world config st h) as (prompt & Hs).
    cbn zeta in Hs. rewrite Hs. clear Hs. eexists. split; [reflexivity |].
    rewrite Hm. fold (count_of st).
    change (get_default (in_max_research_loops input)
              (Configuration.max_research_loops config))
      with (max_loops input config).
    assert (Hbm : (loop_bound input config = Z.max 1 (max_loops input config))%Z)
      by reflexivity.
    assert (Hcount : forall u, Update.research_loop_count u = Some (count_of st + 1)%Z ->
              count_of (apply_update st u) = (count_of st + 1)%Z).
    { intros u Hu. unfold count_of at 1.
      cbn [apply_update OverallState.research_loop_count overwrite].
      now rewrite Hu. }
    destruct (r_is_sufficient _ || _) eqn:Hstop.
    + split.
      * apply track_finalize_answer.
        -- rewrite Hcount by reflexivity. lia.
        -- exact Hm.
        -- rewrite count_waves_snoc, Hcount by reflexivity. rewrite Hw. cbn. lia.
      * unfold remaining, loop_count. cbn [pending state String.eqb Ascii.eqb Bool.eqb].
        fold (count_of st). lia.
    + apply orb_false_iff in Hstop as [Hsuff Hlt].
      rewrite Z.geb_leb in Hlt. apply Z.leb_gt in Hlt.
      destruct (r_follow_up_queries _) as [|q qs] eqn:Hq.
      * split.
        -- apply track_over.
           ++ rewrite Hcount by reflexivity. lia.
           ++ exact Hm.
           ++ rewrite count_waves_snoc, Hcount by reflexivity. rewrite Hw. cbn. lia.
           ++ intros Hne. exfalso.
              destruct (Hne (List.length h) 0%nat (reflection_llm st config) prompt)
                as [_ Hn].
              now apply (Hn Hsuff).
        -- unfold remaining, loop_count. cbn [pending state map dispatch
                                               String.eqb Ascii.eqb Bool.eqb].
           fold (count_of st). lia.
      * split.
        -- apply track_web_research.
           ++ rewrite Hcount by reflexivity. lia.
           ++ exact Hm.
           ++ rewrite count_waves_snoc, Hcount by reflexivity. rewrite Hw. cbn. lia.
        -- unfold remaining, loop_count.
           cbn [pending state map dispatch String.eqb Ascii.eqb Bool.eqb
                apply_update OverallState.research_loop_count overwrite
                Update.research_loop_count].
           rewrite get_default_some. fold (count_of st). lia.
  - (* finalize_answer *)
    destruct (superstep_finalize_answer world config st h) as (u & Hu & Hs).
    rewrite Hs. clear Hs. eexists. split; [reflexivity |].
    destruct (finalize_answer_ok (world (List.length h) 0%nat) st config)
      as (prompt & _ & Hf).
    rewrite Hf in Hu. injection Hu as <-.
    split.
    + apply track_over.
      * exact Hc.
      * exact Hm.
      * rewrite count_waves_snoc. cbn. unfold count_of in *.
        cbn [apply_update OverallState.research_loop_count overwrite
             Update.research_loop_count].
        lia.
      * intros _. apply in_or_app. right. now left.
    + unfold remaining. cbn. lia.
  - now contradiction Hp.
Qed.
End LoopSteps.

Lemma on_track_run world config input fuel r r' :
  on_track world config input r ->
  run fuel world config r = Ok r' ->
  on_track world config input r'.
Proof.
  revert r. induction fuel as [|fuel IH]; intros r Hr H.
  - now injection H as <-.
  - cbn [run] in H. destruct (pending r) eqn:Hp.
    + now injection H as <-.
    + destruct (on_track_step world config input r Hr) as (r1 & Hs & Hr1 & _).
      { rewrite Hp. discriminate. }
      rewrite Hs in H. cbn [bind] in H. eauto.
Qed.

Lemma remaining_zero world config input r :
  on_track world config input r ->
  remaining config input r = 0%nat -> pending r = [].
Proof.
  pose proof (bound_positive config input) as Hb.
  intros H; destruct H; unfold remaining, loop_count;
    cbn [pending state map dispatch String.eqb Ascii.eqb Bool.eqb];
    try fold (count_of st); intros; try reflexivity; lia.
Qed.

Lemma on_track_terminates world config input n r :
  on_track world config input r ->
  remaining config input r <= n ->
  exists r', run n world config r = Ok r'
             /\ pending r' = [] /\ on_track world config input r'.
Proof.
  revert r. induction n as [|n IH]; intros r Hr Hn.
  - exists r. cbn [run]. repeat split; [| assumption].
    apply (remaining_zero world config input r Hr). lia.
  - destruct (pending r) eqn:Hp.
    + exists r. rewrite run_over by assumption. now repeat split.
    + destruct (on_track_step world config input r Hr) as (r1 & Hs & Hr1 & Hlt).
      { rewrite Hp. discriminate. }
      destruct (IH r1 Hr1) as (r' & Hrun & Hover & Hr'); [lia |].
      exists r'. cbn [run]. rewrite Hp, Hs. cbn [bind]. now repeat split.
Qed.

Lemma on_track_finalized world config input r :
  on_track world config input r ->
  pending r = [] -> nonempty_dispatch world -> ran "finalize_answer" r.
Proof.
  intros H; destruct H; cbn [pending]; intros Hp Hne; try discriminate Hp.
  exists [Pull "finalize_answer"]. cbn [history]. split; [auto | now left].
Qed.

Lemma step_ends_ok world config input r r1 :
  on_track world config input r ->
  pending r <> [] ->
  superstep world config r = Ok r1 ->
  pending r1 = [] ->
  ran "finalize_answer" r1 \/ stopped_on_empty input config r1.
Proof.
  intros H; destruct H as [st h Hc Hm Hw | st h q qs Hc Hm Hw | st h Hc Hm Hw
                          | st h Hc Hm Hw | st h Hc Hm Hw Hf];
    cbn [pending]; intros Hp.
  - destruct (superstep_generate_query world config st h) as (prompt & Hs).
    cbn zeta in Hs. rewrite Hs. intros [= <-]. cbn [pending].
    destruct (query _) as [|q qs]; [| discriminate].
    intros _. right. left. unfold stopped_on_empty. cbn [state].
    cbn [apply_update OverallState.query_list OverallState.research_loop_count
         overwrite Update.query_list Update.research_loop_count].
    split; [reflexivity | exact Hc].
  - rewrite superstep_web_research. intros [= <-]. discriminate.
  - destruct (superstep_reflection world config st h) as (prompt & Hs).
    cbn zeta in Hs. rewrite Hs. intros [= <-]. cbn [pending].
    rewrite Hm.
    change (get_default (in_max_research_loops input)
              (Configuration.max_research_loops config))
      with (max_loops input config).
    destruct (r_is_sufficient _) eqn:Hsuff; cbn [orb]; [discriminate |].
    destruct (Z.geb_spec (get_default (OverallState.research_loop_count st) 0 + 1)%Z
                (max_loops input config)) as [_ | Hlt]; [discriminate |].
    destruct (r_follow_up_queries _) as [|q qs]; [| discriminate].
    intros _. right. right. unfold loop_count. cbn [state].
    cbn [apply_update OverallState.is_sufficient OverallState.follow_up_queries
         OverallState.research_loop_count overwrite Update.is_sufficient
         Update.follow_up_queries Update.research_loop_count].
    rewrite get_default_some. repeat split. exact Hlt.
  - destruct (superstep_finalize_answer world config st h) as (u & _ & Hs).
    rewrite Hs. intros [= <-] _. left.
    exists [Pull "finalize_answer"]. cbn [history]. split.
    + apply in_or_app. right. now left.
    + now left.
  - now contradiction Hp.
Qed.

Lemma run_ends_ok world config input fuel r r' :
  on_track world config input r ->
  pending r <> [] ->
  run fuel world config r = Ok r' ->
  pending r' = [] ->
  ran "finalize_answer" r' \/ stopped_on_empty input config r'.
Proof.
  revert r. induction fuel as [|fuel IH]; intros r Hr Hp H Hover.
  - injection H as <-. now contradiction Hp.
  - destruct (on_track_step world config input r Hr Hp) as (r1 & Hs & Hr1 & _).
    cbn [run] in H. destruct (pending r) eqn:Hpr; [now contradiction Hp |].
    rewrite Hs in H. cbn [bind] in H.
    destruct (pending r1) eqn:Hp1.
    + rewrite run_over in H by assumption. injection H as <-.
      apply (step_ends_ok world config input r r1 Hr); try assumption.
      rewrite Hpr. discriminate.
    + apply (IH r1 Hr1); try assumption. rewrite Hp1. discriminate.
Qed.

(** C2 as stated fails for a maximum below one: with [max_research_loops]
    0 the first [reflection] still runs and leaves the counter at 1. *)
Lemma loop_count_exceeds_zero_maximum :
  exists r,
    run 3 (sample_world ["a"] ["b"]) zero_loops_config (start sample_input) = Ok r
    /\ (loop_count r > max_loops sample_input zero_loops_config)%Z.
Proof. eexists. split; [vm_compute; reflexivity | vm_compute; reflexivity]. Qed.

(** C2, amended.  In every state a run reaches, [research_loop_count] is
    at most the larger of 1 and [maxLoops], hence at most [maxLoops]
    whenever [maxLoops >= 1]; at most that many waves have run.  The run
    never raises and is over after at most [2 * max(1, maxLoops) + 2]
    steps.  It is then over because [finalize_answer] ran, unless a
    routing function returned no [Send] ([generate_query] returned no
    query, or an insufficient [reflection] below the maximum proposed no
    follow-up query); in particular [finalize_answer] has run whenever the
    query generator returns at least one query and every reflection that
    reports insufficiency proposes at least one follow-up query. *)
Theorem research_loop_bounded
    (world : World) (config : Configuration.t) (input : RunInput)
    (fuel : nat) (r : Run) :
  run fuel world config (start input) = Ok r ->
  let maxLoops := max_loops input config in
  (loop_count r <= Z.max 1 maxLoops)%Z
  /\ ((1 <= maxLoops)%Z -> (loop_count r <= maxLoops)%Z)
  /\ waves r <= Z.to_nat (Z.max 1 maxLoops)
  /\ exists final,
       run (2 * Z.to_nat (Z.max 1 maxLoops) + 2) world config (start input) = Ok final
       /\ pending final = []
       /\ (loop_count final <= Z.max 1 maxLoops)%Z
       /\ waves final <= Z.to_nat (Z.max 1 maxLoops)
       /\ (nonempty_dispatch world -> ran "finalize_answer" final)
       /\ (ran "finalize_answer" final \/ stopped_on_empty input config final).
Proof.
  intros Hrun maxLoops.
  pose proof (on_track_start world config input) as H0.
  pose proof (on_track_run _ _ _ _ _ _ H0 Hrun) as Hr.
  destruct (on_track_bounds _ _ _ _ Hr) as [Hc Hw].
  unfold loop_bound in Hc, Hw. fold maxLoops in Hc, Hw.
  split; [lia |]. split; [lia |]. split; [exact Hw |].
  destruct (on_track_terminates world config input
              (2 * Z.to_nat (Z.max 1 maxLoops) + 2) (start input) H0)
    as (final & Hfin & Hover & Hf).
  { unfold remaining. cbn. unfold loop_bound. fold maxLoops. lia. }
  exists final.
  destruct (on_track_bounds _ _ _ _ Hf) as [Hc' Hw'].
  unfold loop_bound in Hc', Hw'. fold maxLoops in Hc', Hw'.
  repeat split; try assumption; try lia.
  - intros Hne. exact (on_track_finalized _ _ _ _ Hf Hover Hne).
  - eapply (run_ends_ok world config input); [exact H0 | | exact Hfin | exact Hover].
    cbv. discriminate.
Qed.

Lemma sample_world_nonempty : nonempty_dispatch (sample_world ["a"; "b"] ["c"]).
Proof. intros i j llm prompt. split; [discriminate | intros _; discriminate]. Qed.

Lemma satisfied_world_nonempty : nonempty_dispatch satisfied_world.
Proof. intros i j llm prompt. split; [discriminate | intros H; discriminate H]. Qed.

Lemma research_loop_bounded_witness :
  (exists final,
     run 6 (sample_world ["a"; "b"] ["c"]) sample_config (start sample_input) = Ok final
     /\ pending final = []
     /\ (loop_count final <= 2)%Z
     /\ waves final <= 2
     /\ ran "finalize_answer" final)
  /\ (exists final,
        run 6 satisfied_world sample_config (start sample_input) = Ok final
        /\ pending final = []
        /\ ran "finalize_answer" final).
Proof.
  split.
  2: { destruct (research_loop_bounded satisfied_world sample_config sample_input 0
                   (start sample_input) eq_refl)
         as (_ & _ & _ & final & Hrun & Hover & _ & _ & Hfin & _).
       exists final. repeat split.
       - exact Hrun.
       - exact Hover.
       - exact (Hfin satisfied_world_nonempty). }
  destruct (research_loop_bounded (sample_world ["a"; "b"] ["c"]) sample_config
              sample_input 2
              (match run 2 (sample_world ["a"; "b"] ["c"]) sample_config
                       (start sample_input) with
               | Ok r => r
               | Raise _ => start sample_input
               end))
    as (_ & _ & _ & final & Hrun & Hover & Hc & Hw & Hfin & _).
  - vm_compute. reflexivity.
  - exists final. repeat split.
    + exact Hrun.
    + exact Hover.
    + exact Hc.
    + exact Hw.
    + exact (Hfin sample_world_nonempty).
Defined.

(** ** An empty query list *)

(** C4, as the code behaves.  When [generate_query] returns an empty
    [query_list], [continue_to_web_research] returns no [Send]; the only
    edge into [reflection] leaves [web_research], and the targets
    [generate_query] may route to are [web_research] alone, so nothing is
    left to run: the run is over after [generate_query], and neither
    [web_research] nor [reflection] nor [finalize_answer] has run.  (Had
    [reflection] run on that state, it would have returned normally.) *)
Theorem empty_query_list_ends_run
    (world : World) (config : Configuration.t) (input : RunInput) (fuel : nat) :
  (forall llm prompt, query (invoke_query_list (world 0%nat 0%nat) llm prompt) = []) ->
  (forall source, In (source, "reflection") edges -> source = "web_research")
  /\ (forall source path path_map,
        In (source, (path, path_map)) conditional_edges ->
        ~ In "reflection" (map snd path_map))
  /\ exists r,
       run (S fuel) world config (start input) = Ok r
       /\ pending r = []
       /\ history r = [[Pull "generate_query"]]
       /\ OverallState.query_list (state r) = Some []
       /\ continue_to_web_research (state r) = Ok []
       /\ ~ ran "web_research" r
       /\ ~ ran "reflection" r
       /\ ~ ran "finalize_answer" r
       /\ OverallState.messages (state r) = in_messages input
       /\ exists u, reflection (world 1%nat 0%nat) (state r) config = Ok u.
Proof.
  intros Hempty.
  split; [| split].
  - intros source [H | [H | [H | []]]]; inversion H; reflexivity.
  - intros source path path_map [H | [H | []]]; inversion H; subst; cbn.
    + intros [E | []]; discriminate E.
    + intros [E | [E | []]]; discriminate E.
  - change (start input)
      with {| pending := [Pull "generate_query"]; state := initial_state input;
              history := [] |}.
    destruct (superstep_generate_query world config (initial_state input) [])
      as (prompt & Hs).
    cbn zeta in Hs. cbn [List.length] in Hs. rewrite Hempty in Hs.
    cbn [dispatch map app] in Hs.
    eexists. split.
    { cbn [run pending]. rewrite Hs. cbn [bind]. now apply run_over. }
    cbn [pending history state].
    assert (Hnot : forall name, name <> "generate_query" ->
              ~ ran name {| pending := [];
                            state := apply_update (initial_state input)
                              {| Update.messages := None; Update.search_query := None;
                                 Update.web_research_result := None;
                                 Update.sources_gathered := None;
                                 Update.query_list := Some [];
                                 Update.research_loop_count := None;
                                 Update.is_sufficient := None;
                                 Update.knowledge_gap := None;
                                 Update.follow_up_queries := None |};
                            history := [[Pull "generate_query"]] |}).
    { intros name Hn (step & [<- | []] & [E | []]). cbn in E. congruence. }
    repeat split; try (apply Hnot; discriminate).
    + cbn [apply_update OverallState.messages Update.messages get_default].
      cbn [initial_state OverallState.messages]. now rewrite app_nil_r.
    + destruct (reflection_ok (world 1%nat 0%nat)
                  (apply_update (initial_state input)
                     {| Update.messages := None; Update.search_query := None;
                        Update.web_research_result := None;
                        Update.sources_gathered := None;
                        Update.query_list := Some [];
                        Update.research_loop_count := None;
                        Update.is_sufficient := None;
                        Update.knowledge_gap := None;
                        Update.follow_up_queries := None |}) config)
        as (p & _ & Hr).
      eexists. exact Hr.
Qed.

Lemma empty_query_list_ends_run_witness :
  exists r,
    run 10 (sample_world [] ["c"]) sample_config (start sample_input) = Ok r
    /\ pending r = []
    /\ history r = [[Pull "generate_query"]]
    /\ ~ ran "reflection" r
    /\ ~ ran "finalize_answer" r.
Proof.
  destruct (empty_query_list_ends_run (sample_world [] ["c"]) sample_config
              sample_input 9)
    as (_ & _ & r & Hrun & Hover & Hh & _ & _ & _ & Hr & Hf & _).
  - intros llm prompt. reflexivity.
  - exists r. repeat split; assumption.
Defined.


(** * Further properties of the code *)

(** ** Missing keys in [evaluate_research] *)

(** When [evaluate_research] raises. *)
Lemma evaluate_research_raises
    (state : OverallState.t) (config : Configuration.t) (e : exn) :
  evaluate_research state config = Raise e <->
  (OverallState.is_sufficient state = None /\ e = KeyError "is_sufficient")
  \/ (OverallState.is_sufficient state = Some false
      /\ OverallState.research_loop_count state = None
      /\ e = KeyError "research_loop_count")
  \/ (OverallState.is_sufficient state = Some false
      /\ (exists count,
            OverallState.research_loop_count state = Some count
            /\ (count < get_default (OverallState.max_research_loops state)
                          (Configuration.max_research_loops config))%Z)
      /\ OverallState.follow_up_queries state = None
      /\ e = KeyError "follow_up_queries").
Proof.
  unfold evaluate_research, get_default.
  destruct (OverallState.is_sufficient state) as [[|]|]; cbn [item bind].
  - split; [discriminate |].
    intros [[H _] | [[H _] | [H _]]]; discriminate H.
  - destruct (OverallState.research_loop_count state) as [count|]; cbn [item bind].
    + destruct (Z.geb_spec count
                  match OverallState.max_research_loops state with
                  | Some a => a
                  | None => Configuration.max_research_loops config
                  end) as [Hge | Hlt].
      * split; [discriminate |].
        intros [[H _] | [(_ & H & _) | (_ & (c & Hc & Hlt) & _)]];
          try discriminate H.
        injection Hc as <-. lia.
      * destruct (OverallState.follow_up_queries state) as [qs|]; cbn [item bind].
        -- split; [discriminate |].
           intros [[H _] | [(_ & H & _) | (_ & _ & H & _)]]; discriminate H.
        -- split.
           ++ intros [= <-]. right; right.
              repeat split; eauto.
           ++ intros [[H _] | [(_ & H & _) | (_ & _ & _ & ->)]];
                try discriminate H. reflexivity.
    + split.
      * intros [= <-]. right; left. repeat split.
      * intros [[H _] | [(_ & _ & ->) | (_ & (c & Hc & _) & _)]];
          try discriminate; reflexivity.
  - split.
    + intros [= <-]. left. split; reflexivity.
    + intros [[_ ->] | [[H _] | [H _]]]; try discriminate H. reflexivity.
Qed.

(** X1. What [evaluate_research] does is decided by the keys in the order
    it reads them.  It returns ["finalize_answer"] exactly when
    [is_sufficient] is true, or is false with [research_loop_count] at or
    above the maximum: in the first case [research_loop_count] and
    [follow_up_queries] are never read, in the second
    [follow_up_queries] is not, so they may be missing.  It returns the
    [Send]s of the follow-up queries exactly when the research is
    insufficient, the counter is below the maximum and the list is
    present.  It raises [KeyError] for [is_sufficient] when that key is
    missing, for [research_loop_count] when the research is insufficient
    and the counter is missing, and for [follow_up_queries] when the
    research is insufficient, the counter is below the maximum and the
    list is missing. *)
Theorem evaluate_research_outcomes
    (state : OverallState.t) (config : Configuration.t) :
  let maxLoops :=
    get_default (OverallState.max_research_loops state)
                (Configuration.max_research_loops config) in
  (evaluate_research state config = Ok (ToNode "finalize_answer") <->
   OverallState.is_sufficient state = Some true
   \/ (OverallState.is_sufficient state = Some false
       /\ exists count,
            OverallState.research_loop_count state = Some count
            /\ (count >= maxLoops)%Z))
  /\ (forall sends,
        evaluate_research state config = Ok (Fanout sends) <->
        OverallState.is_sufficient state = Some false
        /\ (exists count,
              OverallState.research_loop_count state = Some count
              /\ (count < maxLoops)%Z)
        /\ exists qs,
             OverallState.follow_up_queries state = Some qs /\ sends = dispatch qs)
  /\ (forall e,
        evaluate_research state config = Raise e <->
        (OverallState.is_sufficient state = None /\ e = KeyError "is_sufficient")
        \/ (OverallState.is_sufficient state = Some false
            /\ OverallState.research_loop_count state = None
            /\ e = KeyError "research_loop_count")
        \/ (OverallState.is_sufficient state = Some false
            /\ (exists count,
                  OverallState.research_loop_count state = Some count
                  /\ (count < maxLoops)%Z)
            /\ OverallState.follow_up_queries state = None
            /\ e = KeyError "follow_up_queries")).
Proof.
  intros maxLoops.
  split; [| split; [| intros e; apply evaluate_research_raises]].
  - destruct (OverallState.is_sufficient state) as [[|]|] eqn:Hs.
    + rewrite (evaluate_research_finalize _ _ Hs). split; [now left | reflexivity].
    + destruct (OverallState.research_loop_count state) as [count|] eqn:Hc.
      * rewrite (evaluate_research_insufficient _ _ _ Hs Hc). fold maxLoops.
        destruct (Z.geb_spec count maxLoops) as [Hge | Hlt].
        -- split; [| reflexivity]. intros _. right. split; [reflexivity |].
           exists count. split; [reflexivity | lia].
        -- split.
           ++ destruct (OverallState.follow_up_queries state); discriminate.
           ++ intros [H | (_ & c & [= <-] & Hge)]; [discriminate H | lia].
      * unfold evaluate_research. rewrite Hs, Hc. cbn [item bind]. split.
        -- discriminate.
        -- intros [H | (_ & c & H & _)]; discriminate H.
    + unfold evaluate_research. rewrite Hs. cbn [item bind]. split.
      * discriminate.
      * intros [H | (H & _)]; discriminate H.
  - intros sends.
    destruct (OverallState.is_sufficient state) as [[|]|] eqn:Hs.
    + rewrite (evaluate_research_finalize _ _ Hs). split.
      * discriminate.
      * intros (H & _). discriminate H.
    + destruct (OverallState.research_loop_count state) as [count|] eqn:Hc.
      * rewrite (evaluate_research_insufficient _ _ _ Hs Hc). fold maxLoops.
        destruct (Z.geb_spec count maxLoops) as [Hge | Hlt].
        -- split; [discriminate |].
           intros (_ & (c & [= <-] & Hlt) & _). lia.
        -- destruct (OverallState.follow_up_queries state) as [qs|]; cbn [item bind].
           ++ split.
              ** intros [= <-]. split; [reflexivity |]. split.
                 --- exists count. now split.
                 --- exists qs. now split.
              ** intros (_ & _ & qs' & [= <-] & ->). reflexivity.
           ++ split; [discriminate |].
              intros (_ & _ & qs' & H & _). discriminate H.
      * unfold evaluate_research. rewrite Hs, Hc. cbn [item bind]. split.
        -- discriminate.
        -- intros (_ & (c & H & _) & _). discriminate H.
    + unfold evaluate_research. rewrite Hs. cbn [item bind]. split.
      * discriminate.
      * intros (H & _). discriminate H.
Qed.

(** ** The date in the prompts *)

(** X2. [reflection] passes [current_date] to a template that has no such
    field: the reflection prompt is the same on any two days, as long as
    the research topic is the same. *)
Theorem reflection_prompt_ignores_date
    (w1 w2 : Providers) (state : OverallState.t) :
  get_research_topic w1 (OverallState.messages state)
  = get_research_topic w2 (OverallState.messages state) ->
  ~ In "current_date" (fields reflection_instructions)
  /\ reflection_prompt w1 state = reflection_prompt w2 state.
Proof.
  intros Htopic. split.
  - cbn [fields reflection_instructions].
    intros [H | [H | [H | []]]]; discriminate H.
  - destruct (reflection_prompt_ok w1 state) as [-> _].
    destruct (reflection_prompt_ok w2 state) as [-> _].
    now rewrite Htopic.
Qed.

Lemma reflection_prompt_ignores_date_witness :
  reflection_prompt (providers_dated "January 01, 2025") sample_after_wave
  = reflection_prompt (providers_dated "June 30, 2026") sample_after_wave.
Proof.
  apply (reflection_prompt_ignores_date
           (providers_dated "January 01, 2025") (providers_dated "June 30, 2026")
           sample_after_wave).
  reflexivity.
Defined.

(** ** Citation numbers across a wave *)

(** X3. Whatever the order in which the dictionaries of the branches of
    a wave are merged, the sources gathered before the wave keep their
    positions in [sources_gathered]: the citation list [finalize_answer]
    builds from the new state numbers them as before, and numbers the
    pages the wave found (each exactly once) after them. *)
Theorem wave_keeps_citation_numbers
    (ws : nat -> Providers) (st : OverallState.t) (qs : list string)
    (completed : list Update.t) :
  Permutation (wave_updates ws 0 qs) completed ->
  exists new_pages,
    OverallState.sources_gathered (apply_updates st completed)
    = (OverallState.sources_gathered st ++ new_pages)%list
    /\ Permutation new_pages (List.concat (wave_found ws 0 qs))
    /\ citation_lines 0 (OverallState.sources_gathered (apply_updates st completed))
       = (citation_lines 0 (OverallState.sources_gathered st)
          ++ citation_lines (List.length (OverallState.sources_gathered st))
               new_pages)%list
    /\ source_list (apply_updates st completed)
       = join nl
           (citation_lines 0 (OverallState.sources_gathered st)
            ++ citation_lines (List.length (OverallState.sources_gathered st))
                 new_pages)%list.
Proof.
  intros Hperm. exists (flat_map added_sources completed).
  split; [apply apply_updates_sources |]. split.
  - rewrite <- wave_added_sources. symmetry. now apply Permutation_flat_map.
  - rewrite source_list_lines, apply_updates_sources, citation_lines_app.
    split; reflexivity.
Qed.

Lemma wave_keeps_citation_numbers_witness :
  exists new_pages,
    Permutation new_pages
      (List.concat (wave_found (fun _ => sample_providers [] []) 0 ["c"; "d"]))
    /\ source_list
         (apply_updates sample_after_wave
            (rev (wave_updates (fun _ => sample_providers [] []) 0 ["c"; "d"])))
       = join nl
           ([ "[1]: [Page on a](https://example.org/a)"
            ; "[2]: [Page on b](https://example.org/b)" ]
            ++ citation_lines 2 new_pages)%list.
Proof.
  destruct (wave_keeps_citation_numbers (fun _ => sample_providers [] [])
              sample_after_wave ["c"; "d"]
              (rev (wave_updates (fun _ => sample_providers [] []) 0 ["c"; "d"])))
    as (new_pages & _ & Hp & _ & Hs).
  - apply Permutation_rev.
  - exists new_pages. split; [exact Hp | exact Hs].
Defined.

(** ** One summary per search *)

Lemma branch_queries_cons (t : Task) (ts : list Task) :
  branch_queries (t :: ts) = (branch_queries [t] ++ branch_queries ts)%list.
Proof. unfold branch_queries. cbn [flat_map]. now rewrite app_nil_r. Qed.

Lemma dispatched_snoc (h : list (list Task)) (step : list Task) :
  dispatched (h ++ [step]) = (dispatched h ++ branch_queries step)%list.
Proof.
  unfold dispatched. rewrite flat_map_app. cbn [flat_map].
  now rewrite app_nil_r.
Qed.

Lemma run_task_adds w state config t u :
  run_task w state config t = Ok u ->
  List.length (added_results u) = List.length (branch_queries [t]).
Proof.
  destruct t as [name | s]; cbn [run_task].
  - destruct (name =? "generate_query").
    { destruct (generate_query_ok w state config) as (p & _ & ->).
      intros [= <-]. reflexivity. }
    destruct (name =? "reflection").
    { destruct (reflection_ok w state config) as (p & _ & ->).
      intros [= <-]. reflexivity. }
    destruct (name =? "finalize_answer").
    { destruct (finalize_answer_ok w state config) as (p & _ & ->).
      intros [= <-]. reflexivity. }
    discriminate.
  - destruct (send_node s =? "web_research"); [| discriminate].
    unfold web_research. intros [= <-]. reflexivity.
Qed.

Lemma run_tasks_adds ws state config i ts us :
  run_tasks ws state config i ts = Ok us ->
  List.length (flat_map added_results us) = List.length (branch_queries ts).
Proof.
  revert i us. induction ts as [|t ts IH]; intros i us H.
  - injection H as <-. reflexivity.
  - cbn [run_tasks] in H.
    destruct (run_task (ws i) state config t) as [u|e] eqn:Ht; [| discriminate].
    cbn [bind] in H.
    destruct (run_tasks ws state config (S i) ts) as [us'|e] eqn:Hts; [| discriminate].
    injection H as <-.
    rewrite branch_queries_cons. cbn [flat_map].
    rewrite !length_app, (run_task_adds _ _ _ _ _ Ht), (IH _ _ Hts). reflexivity.
Qed.

Lemma superstep_history world config r r' :
  superstep world config r = Ok r' ->
  history r' = (history r ++ [pending r])%list.
Proof.
  unfold superstep. intros H.
  destruct (run_tasks _ _ _ _ _) as [us|e]; [| discriminate].
  cbn [bind] in H.
  destruct (next_tasks _ _ _) as [nxt|e]; [| discriminate].
  now injection H as <-.
Qed.

Lemma superstep_adds world config r r' :
  superstep world config r = Ok r' ->
  List.length (OverallState.web_research_result (state r'))
  = (List.length (OverallState.web_research_result (state r))
     + List.length (branch_queries (pending r)))%nat.
Proof.
  unfold superstep. intros H.
  destruct (run_tasks _ _ _ _ _) as [us|e] eqn:Hus; [| discriminate].
  cbn [bind] in H.
  destruct (next_tasks _ _ _) as [nxt|e]; [| discriminate].
  injection H as <-. cbn [state].
  now rewrite apply_updates_results, length_app, (run_tasks_adds _ _ _ _ _ _ Hus).
Qed.

Lemma run_adds fuel world config r r' :
  run fuel world config r = Ok r' ->
  List.length (OverallState.web_research_result (state r))
  = List.length (dispatched (history r)) ->
  List.length (OverallState.web_research_result (state r'))
  = List.length (dispatched (history r')).
Proof.
  revert r. induction fuel as [|fuel IH]; intros r H Hr.
  - now injection H as <-.
  - cbn [run] in H. destruct (pending r) eqn:Hp.
    + now injection H as <-.
    + destruct (superstep world config r) as [r1|e] eqn:Hs; [| discriminate].
      cbn [bind] in H.
      apply (IH r1 H).
      rewrite (superstep_adds _ _ _ _ Hs), (superstep_history _ _ _ _ Hs).
      rewrite dispatched_snoc, length_app, Hr, Hp. reflexivity.
Qed.

(** X4. In every state of a run, [web_research_result] holds exactly one
    summary for each [web_research] branch that has run so far: a search
    that finds nothing still contributes its (empty) summary, and no
    other node adds or removes one. *)
Theorem one_summary_per_search
    (fuel : nat) (world : World) (config : Configuration.t) (input : RunInput)
    (r : Run) :
  run fuel world config (start input) = Ok r ->
  List.length (OverallState.web_research_result (state r))
  = List.length (dispatched (history r)).
Proof.
  intros H. apply (run_adds _ _ _ _ _ H). reflexivity.
Qed.

Lemma one_summary_per_search_witness :
  exists r,
    run 10 (sample_world ["a"; "b"] ["c"]) sample_config (start sample_input) = Ok r
    /\ dispatched (history r) = ["a"; "b"; "c"]
    /\ List.length (OverallState.web_research_result (state r)) = 3%nat.
Proof.
  pose (r := match run 10 (sample_world ["a"; "b"] ["c"]) sample_config
                       (start sample_input) with
             | Ok r => r
             | Raise _ => start sample_input
             end).
  exists r.
  assert (H : run 10 (sample_world ["a"; "b"] ["c"]) sample_config (start sample_input)
              = Ok r) by (vm_compute; reflexivity).
  split; [exact H |]. split; [vm_compute; reflexivity |].
  exact (one_summary_per_search 10 _ _ _ r H).
Defined.

(** ** The conversation, the counter and [query_list] along a run *)

Lemma ran_snoc name p s h step p0 s0 :
  ran name {| pending := p; state := s; history := (h ++ [step])%list |} ->
  ran name {| pending := p0; state := s0; history := h |}
  \/ In name (map task_name step).
Proof.
  intros (st & Hin & Hname). cbn [history] in Hin.
  apply in_app_or in Hin as [Hin | [<- | []]].
  - left. exists st. now split.
  - now right.
Qed.

Lemma count_steps_snoc name (h : list (list Task)) (step : list Task) :
  count_steps name (h ++ [step])
  = (count_steps name h + (if runs_node name step then 1 else 0))%nat.
Proof.
  unfold count_steps. rewrite filter_app, length_app. cbn [filter].
  destruct (runs_node name step); reflexivity.
Qed.

Lemma wave_task_names qs :
  forall name, In name (map task_name (map Push (dispatch qs))) -> name = "web_research".
Proof.
  induction qs as [|q qs IH]; intros name; cbn [dispatch map task_name send_node In].
  - intros [].
  - intros [<- | H]; [reflexivity | now apply IH].
Qed.

Lemma wave_runs_no_reflection qs :
  runs_node "reflection" (map Push (dispatch qs)) = false.
Proof.
  unfold runs_node. induction qs as [|q qs IH]; [reflexivity |].
  cbn [dispatch map existsb task_name send_node]. fold (dispatch qs).
  rewrite IH. reflexivity.
Qed.

Lemma wave_keeps_messages ws i qs st :
  OverallState.messages (apply_updates st (wave_updates ws i qs))
  = OverallState.messages st.
Proof.
  unfold apply_updates. revert i st.
  induction qs as [|q qs IH]; intros i st; [reflexivity |].
  cbn [wave_updates fold_left]. rewrite IH.
  cbn [apply_update OverallState.messages Update.messages get_default].
  now rewrite app_nil_r.
Qed.

Lemma wave_keeps_query_list ws i qs st :
  OverallState.query_list (apply_updates st (wave_updates ws i qs))
  = OverallState.query_list st.
Proof.
  unfold apply_updates. revert i st.
  induction qs as [|q qs IH]; intros i st; [reflexivity |].
  cbn [wave_updates fold_left]. now rewrite IH.
Qed.

Lemma first_step world config input :
  exists prompt,
    generate_query_prompt (world 0%nat 0%nat) (initial_state input) config = Ok prompt
    /\ let qs := query (invoke_query_list (world 0%nat 0%nat)
                          (get_llm config (Configuration.query_generator_model config))
                          prompt) in
       first_queries world config input = Some qs
       /\ superstep world config (start input)
          = Ok {| pending := map Push (dispatch qs);
                  state :=
                    apply_update (initial_state input)
                      {| Update.messages := None; Update.search_query := None;
                         Update.web_research_result := None;
                         Update.sources_gathered := None;
                         Update.query_list := Some qs;
                         Update.research_loop_count := None;
                         Update.is_sufficient := None;
                         Update.knowledge_gap := None;
                         Update.follow_up_queries := None |};
                  history := [[Pull "generate_query"]] |}.
Proof.
  destruct (generate_query_ok (world 0%nat 0%nat) (initial_state input) config)
    as (prompt & Hp & Hg).
  exists prompt. split; [exact Hp |]. cbn zeta. split.
  - unfold first_queries. now rewrite Hg.
  - change (start input)
      with {| pending := [Pull "generate_query"]; state := initial_state input;
              history := [] |}.
    unfold superstep.
    cbn [pending state history List.length run_tasks run_task
         String.eqb Ascii.eqb Bool.eqb].
    rewrite Hg. cbn [bind apply_updates fold_left map task_name].
    change (nodup string_dec ["generate_query"]) with ["generate_query"].
    erewrite next_after_generate_query by reflexivity.
    reflexivity.
Qed.

Lemma well_run_start world config input : well_run world config input (start input).
Proof.
  unfold well_run. repeat split.
  - destruct H as (step & [] & _).
  - destruct H as (step & [] & _).
  - intros H. now contradiction H.
Qed.

Lemma well_run_step world config input r r' :
  on_track world config input r ->
  well_run world config input r ->
  superstep world config r = Ok r' ->
  well_run world config input r'.
Proof.
  intros Ht (W1 & W2 & W3 & W4 & W5 & W6).
  destruct Ht as [st h Hc Hm Hw | st h q qs Hc Hm Hw | st h Hc Hm Hw
                 | st h Hc Hm Hw | st h Hc Hm Hw Hf];
    cbn [pending state history] in *.
  - (* generate_query: this is the first step *)
    specialize (W5 eq_refl). injection W5 as -> ->.
    destruct (first_step world config input) as (prompt & _ & Hs).
    cbn zeta in Hs. destruct Hs as [Hfirst Hs].
    change {| pending := [Pull "generate_query"]; state := initial_state input;
              history := [] |} with (start input).
    rewrite Hs. intros [= <-].
    unfold well_run. cbn [pending state history].
    split; [| split; [| split; [| split; [| split]]]].
    + intros (step & [<- | []] & [E | []]). discriminate E.
    + intros _. cbn [apply_update OverallState.messages Update.messages get_default].
      now rewrite app_nil_r.
    + reflexivity.
    + intros _. now rewrite Hfirst.
    + destruct (query _); discriminate.
    + discriminate.
  - (* a wave *)
    rewrite superstep_web_research.
    pose proof (wave_keeps_messages (world (List.length h)) 0%nat (q :: qs) st) as Hmsg.
    pose proof (wave_keeps_count (world (List.length h)) 0%nat (q :: qs) st) as Hcnt.
    pose proof (wave_keeps_query_list (world (List.length h)) 0%nat (q :: qs) st) as Hql.
    revert Hmsg Hcnt Hql.
    generalize (apply_updates st (wave_updates (world (List.length h)) 0 (q :: qs))).
    intros st1 Hmsg Hcnt Hql [= <-].
    assert (Hno : ~ ran "finalize_answer"
                     {| pending := map Push (dispatch (q :: qs)); state := st;
                        history := h |}).
    { intros Hr. destruct (W1 Hr) as [E _]. discriminate E. }
    unfold well_run. cbn [pending state history].
    split; [| split; [| split; [| split; [| split]]]].
    + intros Hr. apply ran_snoc with (p0 := map Push (dispatch (q :: qs))) (s0 := st) in Hr.
      destruct Hr as [Hr | Hin]; [now contradiction Hno |].
      apply (wave_task_names (q :: qs)) in Hin. discriminate Hin.
    + intros _. rewrite Hmsg. now apply W2.
    + rewrite count_steps_snoc.
      change (runs_node "reflection" _)
        with (runs_node "reflection" (map Push (dispatch (q :: qs)))).
      rewrite wave_runs_no_reflection.
      unfold loop_count in *. cbn [state] in *. rewrite Hcnt. lia.
    + intros _. rewrite Hql. apply W4.
      intros E. specialize (W6 E). discriminate W6.
    + discriminate.
    + intros E. now destruct h.
  - (* reflection *)
    destruct (superstep_reflection world config st h) as (prompt & Hs).
    cbn zeta in Hs. rewrite Hs. intros [= <-].
    assert (Hno : ~ ran "finalize_answer"
                     {| pending := [Pull "reflection"]; state := st; history := h |}).
    { intros Hr. destruct (W1 Hr) as [E _]. discriminate E. }
    unfold well_run. cbn [pending state history].
    split; [| split; [| split; [| split; [| split]]]].
    + intros Hr. apply ran_snoc with (p0 := [Pull "reflection"]) (s0 := st) in Hr.
      destruct Hr as [Hr | [E | []]]; [now contradiction Hno | discriminate E].
    + intros _. cbn [apply_update OverallState.messages Update.messages get_default].
      rewrite app_nil_r. now apply W2.
    + rewrite count_steps_snoc. cbn [runs_node existsb task_name String.eqb Ascii.eqb
                                      Bool.eqb orb].
      unfold loop_count in *. cbn [state] in *.
      cbn [apply_update OverallState.research_loop_count overwrite
           Update.research_loop_count].
      rewrite get_default_some. lia.
    + intros _. cbn [apply_update OverallState.query_list overwrite Update.query_list].
      apply W4. intros E. specialize (W6 E). discriminate W6.
    + destruct (_ || _); [discriminate |].
      destruct (r_follow_up_queries _); discriminate.
    + intros E. now destruct h.
  - (* finalize_answer *)
    destruct (superstep_finalize_answer world config st h) as (u & Hu & Hs).
    rewrite Hs. intros [= <-].
    destruct (finalize_answer_ok (world (List.length h) 0%nat) st config)
      as (prompt & _ & Hf).
    rewrite Hf in Hu. injection Hu as <-.
    assert (Hno : ~ ran "finalize_answer"
                     {| pending := [Pull "finalize_answer"]; state := st;
                        history := h |}).
    { intros Hr. destruct (W1 Hr) as [E _]. discriminate E. }
    unfold well_run. cbn [pending state history].
    split; [| split; [| split; [| split; [| split]]]].
    + intros _. split; [reflexivity |].
      eexists. cbn [apply_update OverallState.messages Update.messages get_default].
      rewrite (W2 Hno). reflexivity.
    + intros Hn. exfalso. apply Hn.
      exists [Pull "finalize_answer"]. cbn [history]. split.
      * apply in_or_app. right. now left.
      * now left.
    + rewrite count_steps_snoc. cbn [runs_node existsb task_name String.eqb Ascii.eqb
                                      Bool.eqb orb].
      unfold loop_count in *. cbn [state] in *.
      cbn [apply_update OverallState.research_loop_count overwrite
           Update.research_loop_count].
      lia.
    + intros _. cbn [apply_update OverallState.query_list overwrite Update.query_list].
      apply W4. intros E. specialize (W6 E). discriminate W6.
    + discriminate.
    + intros E. now destruct h.
  - (* nothing pending: no step is taken by [run]; a step changes nothing *)
    unfold superstep. cbn [pending state history run_tasks bind apply_updates
                           fold_left map nodup next_tasks].
    intros [= <-].
    assert (Hno : forall name p s, ran name {| pending := p; state := s;
                                              history := (h ++ [[]])%list |} ->
                   ran name {| pending := []; state := st; history := h |}).
    { intros name p s Hr. apply ran_snoc with (p0 := []) (s0 := st) in Hr.
      destruct Hr as [Hr | []]. exact Hr. }
    unfold well_run. cbn [pending state history].
    split; [| split; [| split; [| split; [| split]]]].
    + intros Hr. apply Hno in Hr. destruct (W1 Hr) as [_ Ha]. now split.
    + intros Hn. apply W2. intros Hr. apply Hn.
      destruct Hr as (step & Hin & Hname). exists step. cbn [history] in *.
      split; [apply in_or_app; now left | exact Hname].
    + rewrite count_steps_snoc. cbn. unfold loop_count in *. cbn [state] in *. lia.
    + intros _. apply W4. intros E. specialize (W6 E). discriminate W6.
    + discriminate.
    + intros E. now destruct h.
Qed.

Lemma well_run_run world config input fuel r r' :
  on_track world config input r ->
  well_run world config input r ->
  run fuel world config r = Ok r' ->
  well_run world config input r'.
Proof.
  revert r. induction fuel as [|fuel IH]; intros r Ht Hw H.
  - now injection H as <-.
  - cbn [run] in H. destruct (pending r) eqn:Hp.
    + now injection H as <-.
    + destruct (on_track_step world config input r Ht) as (r1 & Hs & Ht1 & _).
      { rewrite Hp. discriminate. }
      rewrite Hs in H. cbn [bind] in H.
      apply (IH r1 Ht1); [| exact H].
      exact (well_run_step _ _ _ _ _ Ht Hw Hs).
Qed.

Lemma reached_well_run world config input fuel r :
  run fuel world config (start input) = Ok r ->
  on_track world config input r /\ well_run world config input r.
Proof.
  intros H. split.
  - exact (on_track_run _ _ _ _ _ _ (on_track_start world config input) H).
  - exact (well_run_run _ _ _ _ _ _ (on_track_start world config input)
             (well_run_start world config input) H).
Qed.

(** X5. The conversation changes once in a run: until [finalize_answer]
    has run, [messages] is the caller's list; once it has run the run is
    over and [messages] is the caller's list followed by exactly one
    [AIMessage], the answer. *)
Theorem conversation_gets_one_answer
    (fuel : nat) (world : World) (config : Configuration.t) (input : RunInput)
    (r : Run) :
  run fuel world config (start input) = Ok r ->
  (ran "finalize_answer" r ->
     pending r = []
     /\ exists answer,
          OverallState.messages (state r)
          = (in_messages input ++ [AIMessage answer])%list)
  /\ (~ ran "finalize_answer" r ->
      OverallState.messages (state r) = in_messages input).
Proof.
  intros H. destruct (reached_well_run _ _ _ _ _ H) as (_ & W1 & W2 & _).
  now split.
Qed.

Lemma conversation_gets_one_answer_witness :
  exists r,
    run 10 (sample_world ["a"; "b"] ["c"]) sample_config (start sample_input) = Ok r
    /\ exists answer,
         OverallState.messages (state r)
         = [HumanMessage "Who won Euro 2024?"; AIMessage answer].
Proof.
  pose (r := match run 10 (sample_world ["a"; "b"] ["c"]) sample_config
                       (start sample_input) with
             | Ok r => r
             | Raise _ => start sample_input
             end).
  exists r.
  assert (H : run 10 (sample_world ["a"; "b"] ["c"]) sample_config (start sample_input)
              = Ok r) by (vm_compute; reflexivity).
  split; [exact H |].
  destruct (conversation_gets_one_answer 10 _ _ _ r H) as [Hfin _].
  destruct Hfin as (_ & answer & Ha).
  - exists [Pull "finalize_answer"]. split; [vm_compute; tauto | now left].
  - exists answer. exact Ha.
Defined.

(** X7. [query_list] is written by [generate_query] alone: from the first
    step on, and for the rest of the run, it holds the list the first
    model call returned.  The follow-up queries of [reflection] are
    dispatched but never stored in it. *)
Theorem query_list_is_the_first_list
    (fuel : nat) (world : World) (config : Configuration.t) (input : RunInput)
    (r : Run) :
  run fuel world config (start input) = Ok r ->
  history r <> [] ->
  exists prompt,
    generate_query_prompt (world 0%nat 0%nat) (initial_state input) config = Ok prompt
    /\ OverallState.query_list (state r)
       = Some (query (invoke_query_list (world 0%nat 0%nat)
                        (get_llm config (Configuration.query_generator_model config))
                        prompt)).
Proof.
  intros H Hh. destruct (reached_well_run _ _ _ _ _ H) as (_ & _ & _ & _ & W4 & _).
  destruct (first_step world config input) as (prompt & Hp & Hq & _).
  exists prompt. split; [exact Hp |].
  rewrite (W4 Hh). exact Hq.
Qed.

Lemma query_list_is_the_first_list_witness :
  exists r,
    run 10 (sample_world ["a"; "b"] ["c"]) sample_config (start sample_input) = Ok r
    /\ dispatched (history r) = ["a"; "b"; "c"]
    /\ OverallState.query_list (state r) = Some ["a"; "b"].
Proof.
  pose (r := match run 10 (sample_world ["a"; "b"] ["c"]) sample_config
                       (start sample_input) with
             | Ok r => r
             | Raise _ => start sample_input
             end).
  exists r.
  assert (H : run 10 (sample_world ["a"; "b"] ["c"]) sample_config (start sample_input)
              = Ok r) by (vm_compute; reflexivity).
  split; [exact H |]. split; [vm_compute; reflexivity |].
  destruct (query_list_is_the_first_list 10 _ _ _ r H) as (prompt & _ & Hq).
  - vm_compute. discriminate.
  - exact Hq.
Defined.

(** X8. The counter counts: in every state of a run
    [research_loop_count] (0 while missing) is the number of [reflection]
    steps taken so far, and the number of completed waves is the same
    number, plus one while the [reflection] of the last wave is pending. *)
Theorem counter_counts_reflections
    (fuel : nat) (world : World) (config : Configuration.t) (input : RunInput)
    (r : Run) :
  run fuel world config (start input) = Ok r ->
  Z.of_nat (count_steps "reflection" (history r)) = loop_count r
  /\ Z.of_nat (waves r)
     = (loop_count r + (if runs_node "reflection" (pending r) then 1 else 0))%Z.
Proof.
  intros H. destruct (reached_well_run _ _ _ _ _ H) as (Ht & _ & _ & W3 & _).
  split; [exact W3 |].
  destruct Ht as [st h Hc Hm Hw | st h q qs Hc Hm Hw | st h Hc Hm Hw
                 | st h Hc Hm Hw | st h Hc Hm Hw Hf];
    unfold waves, loop_count; cbn [pending state history];
    fold (count_waves h); fold (count_of st); rewrite Hw.
  - unfold count_of. rewrite Hc. reflexivity.
  - change (runs_node "reflection" _)
      with (runs_node "reflection" (map Push (dispatch (q :: qs)))).
    rewrite wave_runs_no_reflection. lia.
  - cbn. lia.
  - cbn. lia.
  - cbn. lia.
Qed.

Lemma counter_counts_reflections_witness :
  exists r,
    run 3 (sample_world ["a"; "b"] ["c"]) sample_config (start sample_input) = Ok r
    /\ count_steps "reflection" (history r) = 1%nat
    /\ loop_count r = 1%Z
    /\ waves r = 1%nat.
Proof.
  pose (r := match run 3 (sample_world ["a"; "b"] ["c"]) sample_config
                       (start sample_input) with
             | Ok r => r
             | Raise _ => start sample_input
             end).
  exists r.
  assert (H : run 3 (sample_world ["a"; "b"] ["c"]) sample_config (start sample_input)
              = Ok r) by (vm_compute; reflexivity).
  split; [exact H |].
  destruct (counter_counts_reflections 3 _ _ _ r H) as [H1 H2].
  split; [vm_compute; reflexivity |].
  split; [rewrite <- H1; vm_compute; reflexivity | vm_compute; reflexivity].
Defined.

(** ** The first pass of the loop *)

Lemma run_step fuel world config r r1 :
  pending r <> [] ->
  superstep world config r = Ok r1 ->
  run (S fuel) world config r = run fuel world config r1.
Proof.
  intros Hp Hs. cbn [run]. destruct (pending r); [now contradiction Hp |].
  now rewrite Hs.
Qed.

Lemma run_split a b world config r0 r1 :
  run a world config r0 = Ok r1 ->
  pending r1 <> [] ->
  run (a + b) world config r0 = run b world config r1.
Proof.
  revert b r0 r1. induction a as [|a IH]; intros b r0 r1 H Hp.
  - injection H as <-. reflexivity.
  - cbn [run plus] in *. destruct (pending r0) eqn:Hp0.
    + injection H as <-. now contradiction Hp.
    + destruct (superstep world config r0) as [rx|e]; [| discriminate].
      cbn [bind] in *. now apply IH.
Qed.

Lemma on_track_keeps_override world config input r :
  on_track world config input r -> keeps_override input (state r).
Proof. intros H; destruct H; assumption. Qed.

(** The run up to the first [reflection]: [generate_query], then one wave
    over the queries it returned. *)
Lemma first_wave world config input :
  (forall llm prompt, query (invoke_query_list (world 0%nat 0%nat) llm prompt) <> []) ->
  exists qs st,
    qs <> []
    /\ first_queries world config input = Some qs
    /\ run 2 world config (start input)
       = Ok {| pending := [Pull "reflection"]; state := st;
               history := [[Pull "generate_query"]; map Push (dispatch qs)] |}
    /\ OverallState.research_loop_count st = None
    /\ OverallState.max_research_loops st = in_max_research_loops input.
Proof.
  intros Hne.
  destruct (first_step world config input) as (prompt & _ & Hs).
  cbn zeta in Hs. destruct Hs as [Hfirst Hs].
  specialize (Hne (get_llm config (Configuration.query_generator_model config)) prompt).
  destruct (query _) as [|q qs] eqn:Hq; [now contradiction Hne |].
  exists (q :: qs). eexists.
  split; [discriminate |]. split; [exact Hfirst |].
  split.
  - assert (H0 : pending (start input) <> []) by (cbv; discriminate).
    rewrite (run_step 1 _ _ _ _ H0 Hs).
    erewrite run_step;
      [| cbn [pending dispatch map]; discriminate
       | apply (superstep_web_research world config _ _ q qs)].
    reflexivity.
  - split.
    + rewrite wave_keeps_count. reflexivity.
    + rewrite apply_updates_max_research_loops. reflexivity.
Qed.

(** X6. When the first list of queries is not empty and either the
    maximum is at most one or the first [reflection] reports sufficiency,
    the run is exactly four steps: [generate_query], one wave over the
    generated queries, [reflection], [finalize_answer].  It ends with the
    counter at 1 and one answer added to the conversation, even if the
    research was judged insufficient and follow-up queries were proposed. *)
Theorem one_pass_when_satisfied_or_capped
    (world : World) (config : Configuration.t) (input : RunInput) (extra : nat) :
  (forall llm prompt, query (invoke_query_list (world 0%nat 0%nat) llm prompt) <> []) ->
  (max_loops input config <= 1)%Z
  \/ (forall llm prompt,
        r_is_sufficient (invoke_reflection (world 2%nat 0%nat) llm prompt) = true) ->
  exists qs final,
    first_queries world config input = Some qs
    /\ run (4 + extra) world config (start input) = Ok final
    /\ pending final = []
    /\ history final
       = [ [Pull "generate_query"]; map Push (dispatch qs);
           [Pull "reflection"]; [Pull "finalize_answer"] ]
    /\ loop_count final = 1%Z
    /\ exists answer,
         OverallState.messages (state final)
         = (in_messages input ++ [AIMessage answer])%list.
Proof.
  intros Hne Hstop.
  destruct (first_wave world config input Hne)
    as (qs & st & Hqs & Hfirst & Hrun2 & Hcount & Hmax).
  destruct (superstep_reflection world config st
              [[Pull "generate_query"]; map Push (dispatch qs)]) as (prompt & Hs3).
  cbn zeta in Hs3. cbn [List.length] in Hs3. rewrite Hcount, Hmax in Hs3.
  cbn [get_default] in Hs3.
  change (get_default (in_max_research_loops input)
            (Configuration.max_research_loops config))
    with (max_loops input config) in Hs3.
  assert (Hcond : r_is_sufficient
                    (invoke_reflection (world 2%nat 0%nat) (reflection_llm st config)
                       prompt)
                  || (0 + 1 >=? max_loops input config)%Z = true).
  { destruct Hstop as [Hle | Hsuff].
    - apply orb_true_iff. right. apply Z.geb_le. lia.
    - rewrite Hsuff. reflexivity. }
  rewrite Hcond in Hs3.
  match type of Hs3 with
  | _ = Ok {| pending := _; state := ?st3; history := ?h3 |} =>
      destruct (superstep_finalize_answer world config st3 h3) as (u & _ & Hs4)
  end.
  assert (Hrun : run (4 + extra) world config (start input)
                 = Ok {| pending := [];
                         state := apply_update
                           (apply_update st
                              {| Update.messages := None; Update.search_query := None;
                                 Update.web_research_result := None;
                                 Update.sources_gathered := None;
                                 Update.query_list := None;
                                 Update.research_loop_count := Some (0 + 1)%Z;
                                 Update.is_sufficient :=
                                   Some (r_is_sufficient
                                           (invoke_reflection (world 2%nat 0%nat)
                                              (reflection_llm st config) prompt));
                                 Update.knowledge_gap :=
                                   Some (r_knowledge_gap
                                           (invoke_reflection (world 2%nat 0%nat)
                                              (reflection_llm st config) prompt));
                                 Update.follow_up_queries :=
                                   Some (r_follow_up_queries
                                           (invoke_reflection (world 2%nat 0%nat)
                                              (reflection_llm st config) prompt)) |}) u;
                         history :=
                           [ [Pull "generate_query"]; map Push (dispatch qs);
                             [Pull "reflection"]; [Pull "finalize_answer"] ] |}).
  { change (4 + extra)%nat with (2 + (2 + extra))%nat.
    erewrite (run_split 2%nat (2 + extra)%nat); [| exact Hrun2 | discriminate].
    change (2 + extra)%nat with (S (S extra)).
    erewrite run_step; [| discriminate | exact Hs3].
    erewrite run_step; [| discriminate | exact Hs4].
    now apply run_over. }
  exists qs. eexists. split; [exact Hfirst |]. split; [exact Hrun |].
  destruct (reached_well_run _ _ _ _ _ Hrun) as (_ & W1 & _ & W3 & _).
  cbn [pending history] in *.
  split; [reflexivity |]. split; [reflexivity |]. split.
  - rewrite <- W3. unfold count_steps.
    cbn [filter]. rewrite wave_runs_no_reflection. reflexivity.
  - apply W1. exists [Pull "finalize_answer"]. cbn [history].
    split; [right; right; right; now left | now left].
Qed.

Lemma one_pass_when_satisfied_or_capped_witness :
  exists final,
    run 9 satisfied_world sample_config (start sample_input) = Ok final
    /\ history final
       = [ [Pull "generate_query"]; map Push (dispatch ["a"]);
           [Pull "reflection"]; [Pull "finalize_answer"] ]
    /\ loop_count final = 1%Z.
Proof.
  destruct (one_pass_when_satisfied_or_capped satisfied_world sample_config
              sample_input 5)
    as (qs & final & Hq & Hrun & _ & Hh & Hc & _).
  - intros llm prompt. discriminate.
  - right. intros llm prompt. reflexivity.
  - exists final. split; [exact Hrun |]. split; [| exact Hc].
    rewrite Hh. injection Hq as <-. reflexivity.
Defined.

(** X9. When the first [reflection] reports insufficiency, the maximum is
    at least two and the reflection proposes follow-up queries, the next
    wave is dispatched over exactly those follow-up queries, in their
    order; the counter is 1 and [query_list] still holds the first list. *)
Theorem follow_ups_are_dispatched
    (world : World) (config : Configuration.t) (input : RunInput) :
  (forall llm prompt, query (invoke_query_list (world 0%nat 0%nat) llm prompt) <> []) ->
  (forall llm prompt,
     r_is_sufficient (invoke_reflection (world 2%nat 0%nat) llm prompt) = false) ->
  (2 <= max_loops input config)%Z ->
  exists r follow_ups,
    run 3 world config (start input) = Ok r
    /\ OverallState.follow_up_queries (state r) = Some follow_ups
    /\ pending r = map Push (dispatch follow_ups)
    /\ loop_count r = 1%Z
    /\ OverallState.query_list (state r) = first_queries world config input.
Proof.
  intros Hne Hinsuff Hmaxloops.
  destruct (first_wave world config input Hne)
    as (qs & st & Hqs & Hfirst & Hrun2 & Hcount & Hmax).
  destruct (superstep_reflection world config st
              [[Pull "generate_query"]; map Push (dispatch qs)]) as (prompt & Hs3).
  cbn zeta in Hs3. cbn [List.length] in Hs3. rewrite Hcount, Hmax in Hs3.
  cbn [get_default] in Hs3.
  change (get_default (in_max_research_loops input)
            (Configuration.max_research_loops config))
    with (max_loops input config) in Hs3.
  rewrite Hinsuff in Hs3. cbn [orb] in Hs3.
  destruct (Z.geb_spec (0 + 1) (max_loops input config)) as [Hge | _]; [lia |].
  assert (Hrun : run 3 world config (start input) = Ok
            {| pending :=
                 map Push (dispatch (r_follow_up_queries
                                       (invoke_reflection (world 2%nat 0%nat)
                                          (reflection_llm st config) prompt)));
               state :=
                 apply_update st
                   {| Update.messages := None; Update.search_query := None;
                      Update.web_research_result := None;
                      Update.sources_gathered := None;
                      Update.query_list := None;
                      Update.research_loop_count := Some (0 + 1)%Z;
                      Update.is_sufficient := Some false;
                      Update.knowledge_gap :=
                        Some (r_knowledge_gap
                                (invoke_reflection (world 2%nat 0%nat)
                                   (reflection_llm st config) prompt));
                      Update.follow_up_queries :=
                        Some (r_follow_up_queries
                                (invoke_reflection (world 2%nat 0%nat)
                                   (reflection_llm st config) prompt)) |};
               history := [ [Pull "generate_query"]; map Push (dispatch qs);
                            [Pull "reflection"] ] |}).
  { change 3%nat with (2 + 1)%nat.
    erewrite run_split; [| exact Hrun2 | discriminate].
    erewrite run_step; [| discriminate | exact Hs3].
    reflexivity. }
  eexists. eexists. split; [exact Hrun |].
  destruct (reached_well_run _ _ _ _ _ Hrun) as (_ & _ & _ & _ & W4 & _).
  cbn [pending state history] in *.
  split; [reflexivity |]. split; [reflexivity |]. split; [reflexivity |].
  apply W4. discriminate.
Qed.

Lemma follow_ups_are_dispatched_witness :
  exists r,
    run 3 (sample_world ["a"; "b"] ["c"; "d"]) sample_config (start sample_input) = Ok r
    /\ pending r = map Push (dispatch ["c"; "d"])
    /\ OverallState.query_list (state r) = Some ["a"; "b"].
Proof.
  destruct (follow_ups_are_dispatched (sample_world ["a"; "b"] ["c"; "d"])
              sample_config sample_input)
    as (r & fu & Hrun & Hfu & Hp & _ & Hq).
  - intros llm prompt. discriminate.
  - intros llm prompt. reflexivity.
  - vm_compute. discriminate.
  - exists r. split; [exact Hrun |].
    assert (E : run 3 (sample_world ["a"; "b"] ["c"; "d"]) sample_config
                  (start sample_input)
                = Ok (match run 3 (sample_world ["a"; "b"] ["c"; "d"]) sample_config
                              (start sample_input) with
                      | Ok r => r
                      | Raise _ => start sample_input
                      end)) by (vm_compute; reflexivity).
    rewrite E in Hrun. injection Hrun as <-.
    split; vm_compute; reflexivity.
Defined.

(** ** The model catalogue of app.py *)

Lemma add_model_usable {Any} (models : list (ModelInfo.t Any))
    (model_data : ModelData.t Any) :
  add_model models model_data
  = if usable model_data then (models ++ [model_info_of model_data])%list else models.
Proof.
  unfold add_model, usable, model_info_of.
  destruct (ModelData.id model_data) as [[|a i]|];
    destruct (ModelData.name model_data) as [[|b n]|]; reflexivity.
Qed.

Lemma fold_add_model {Any} (listing : list (ModelData.t Any))
    (models : list (ModelInfo.t Any)) :
  fold_left add_model listing models = (models ++ models_of listing)%list.
Proof.
  unfold models_of. revert models.
  induction listing as [|d listing IH]; intros models.
  - cbn. now rewrite app_nil_r.
  - cbn [fold_left filter]. rewrite IH, add_model_usable.
    destruct (usable d); [| reflexivity].
    cbn [map]. now rewrite <- app_assoc.
Qed.

Lemma models_of_named {Any} (listing : list (ModelData.t Any)) :
  Forall (fun m => ModelInfo.id m <> EmptyString /\ ModelInfo.name m <> EmptyString)
         (models_of listing).
Proof.
  unfold models_of. induction listing as [|d listing IH]; [constructor |].
  cbn [filter]. destruct (usable d) eqn:Hu; [| exact IH].
  cbn [map]. constructor; [| exact IH].
  unfold usable in Hu. apply andb_prop in Hu as [Hi Hn].
  unfold model_info_of. cbn [ModelInfo.id ModelInfo.name].
  destruct (ModelData.id d) as [[|a i]|]; try discriminate Hi.
  destruct (ModelData.name d) as [[|b n]|]; try discriminate Hn.
  split; discriminate.
Qed.

Lemma fetch_fresh {Any} (cache : ModelCache.t Any) (now_check now_store : Z)
    (listing : option (list (ModelData.t Any))) :
  cache_is_valid cache now_check = false ->
  fetch_openrouter_models cache now_check now_store (Replied listing)
  = (models_of (get_default listing []),
     {| ModelCache.data := Some (models_of (get_default listing []));
        ModelCache.last_updated := Some now_store;
        ModelCache.cache_duration := ModelCache.cache_duration cache |}).
Proof.
  intros Hv. unfold fetch_openrouter_models. rewrite Hv.
  now rewrite fold_add_model.
Qed.

(** X10. A request that reaches the network and gets through the [try]
    block without an exception (a well-typed reply: [id] and [name] are
    strings, missing or null, and every kept entry validates as
    [ModelInfo]) returns, in the order of the reply, the entries whose
    [id] and [name] are both present and non-empty, and nothing else; an
    entry with a missing, null or empty [id] or [name] is dropped
    silently.  The list (an empty one too, for a reply without ["data"])
    is stored in the cache with the time of the second clock reading.  A
    reply with an entry that does not validate raises inside the block
    and is the [RequestFailed] case. *)
Theorem fetch_keeps_named_models
    {Any : Type} (cache : ModelCache.t Any) (now_check now_store : Z)
    (listing : option (list (ModelData.t Any))) :
  cache_is_valid cache now_check = false ->
  let entries := get_default listing [] in
  let answer := fetch_openrouter_models cache now_check now_store (Replied listing) in
  fst answer = map model_info_of (filter usable entries)
  /\ Forall (fun m => ModelInfo.id m <> EmptyString /\ ModelInfo.name m <> EmptyString)
            (fst answer)
  /\ List.length (fst answer) <= List.length entries
  /\ ModelCache.data (snd answer) = Some (fst answer)
  /\ ModelCache.last_updated (snd answer) = Some now_store
  /\ ModelCache.cache_duration (snd answer) = ModelCache.cache_duration cache.
Proof.
  intros Hv entries answer. unfold answer. rewrite (fetch_fresh _ _ _ _ Hv).
  cbn [fst snd ModelCache.data ModelCache.last_updated ModelCache.cache_duration].
  fold entries. repeat split.
  - apply models_of_named.
  - unfold models_of. rewrite length_map. apply filter_length_le.
Qed.

Lemma fetch_keeps_named_models_witness :
  map ModelInfo.id
      (fst (fetch_openrouter_models (model_cache unit) 0 5 (Replied (Some sample_listing))))
  = ["openai/gpt-4o"].
Proof.
  destruct (fetch_keeps_named_models (model_cache unit) 0 5 (Some sample_listing))
    as (H & _).
  - reflexivity.
  - rewrite H. reflexivity.
Defined.



(** X12. A request that reaches the network and fails returns the cached
    list when there is one, however old, and the three fallback models
    otherwise, and leaves the cache untouched: neither the fallback list
    nor a new time is stored, so the next request whose clock has not
    gone back goes to the network again and returns what it delivers. *)
Theorem failed_fetch_is_not_cached
    {Any : Type} (cache : ModelCache.t Any) (now_check now_store : Z)
    (later_check later_store : Z) (listing : option (list (ModelData.t Any))) :
  cache_is_valid cache now_check = false ->
  (now_check <= later_check)%Z ->
  let failed := fetch_openrouter_models cache now_check now_store RequestFailed in
  fst failed = match ModelCache.data cache with
               | Some cached => cached
               | None => default_models Any
               end
  /\ snd failed = cache
  /\ fst (fetch_openrouter_models (snd failed) later_check later_store (Replied listing))
     = models_of (get_default listing []).
Proof.
  intros Hv Hle failed.
  assert (Hf : failed = (match ModelCache.data cache with
                         | Some cached => cached
                         | None => default_models Any
                         end, cache)).
  { unfold failed, fetch_openrouter_models. rewrite Hv.
    destruct (ModelCache.data cache); reflexivity. }
  rewrite Hf. cbn [fst snd]. split; [reflexivity |]. split; [reflexivity |].
  rewrite fetch_fresh; [reflexivity |].
  unfold cache_is_valid in *.
  destruct (ModelCache.data cache); [| reflexivity].
  destruct (ModelCache.last_updated cache) as [updated|]; [| reflexivity].
  apply Z.ltb_ge in Hv. apply Z.ltb_ge. lia.
Qed.

Lemma failed_fetch_is_not_cached_witness :
  fst (fetch_openrouter_models (model_cache unit) 0 5 RequestFailed)
  = default_models unit
  /\ snd (fetch_openrouter_models (model_cache unit) 0 5 RequestFailed)
     = model_cache unit
  /\ map ModelInfo.id
       (fst (fetch_openrouter_models
               (snd (fetch_openrouter_models (model_cache unit) 0 5 RequestFailed))
               7 9 (Replied (Some sample_listing))))
     = ["openai/gpt-4o"].
Proof.
  destruct (failed_fetch_is_not_cached (model_cache unit) 0 5 7 9 (Some sample_listing))
    as (H1 & H2 & H3).
  - reflexivity.
  - lia.
  - split; [exact H1 |]. split; [exact H2 |]. rewrite H3. reflexivity.
Defined.

Lemma serve_models_from {Any} (calls : list (Call Any)) :
  forall (cache : ModelCache.t Any) (seen : list (list (ModelData.t Any))),
    cache_from seen cache ->
    Forall (answer_from (seen ++ listings calls)) (fst (serve_models cache calls))
    /\ cache_from (seen ++ listings calls) (snd (serve_models cache calls)).
Proof.
  induction calls as [|call calls IH]; intros cache seen Hc.
  - cbn [serve_models fst snd listings flat_map]. rewrite app_nil_r.
    split; [constructor | exact Hc].
  - cbn [serve_models].
    destruct (fetch_openrouter_models cache (now_check call) (now_store call)
                (outcome call)) as [models cache'] eqn:Hf.
    assert (Hstep : answer_from (seen ++ listings [call]) models
                    /\ cache_from (seen ++ listings [call]) cache').
    { destruct Hc as [Hd Hdata].
      unfold fetch_openrouter_models in Hf.
      destruct (cache_is_valid cache (now_check call)) eqn:Hv.
      - injection Hf as <- <-. unfold cache_is_valid in Hv.
        destruct (ModelCache.data cache) as [cached|] eqn:Hcd; [| discriminate Hv].
        destruct Hdata as (Hu & l & Hin & ->).
        split.
        + right. exists l. split; [apply in_or_app; now left | reflexivity].
        + split; [exact Hd |]. rewrite Hcd. split; [exact Hu |].
          exists l. split; [apply in_or_app; now left | reflexivity].
      - unfold listings. cbn [flat_map]. rewrite app_nil_r.
        destruct (outcome call) as [|listing].
        + destruct (ModelCache.data cache) as [cached|] eqn:Hcd;
            injection Hf as <- <-; rewrite app_nil_r.
          * destruct Hdata as (Hu & l & Hin & ->).
            split; [right; now exists l |].
            split; [exact Hd |]. rewrite Hcd. split; [exact Hu |]. now exists l.
          * split; [now left |].
            split; [exact Hd |]. now rewrite Hcd.
        + rewrite fold_add_model in Hf. cbn [app] in Hf. injection Hf as <- <-.
          split.
          * right. exists (get_default listing []).
            split; [apply in_or_app; right; now left | reflexivity].
          * split; [exact Hd |].
            cbn [ModelCache.data ModelCache.last_updated].
            split; [discriminate |].
            exists (get_default listing []).
            split; [apply in_or_app; right; now left | reflexivity]. }
    destruct Hstep as [Ha Hc'].
    destruct (serve_models cache' calls) as [answers final] eqn:Hs.
    destruct (IH cache' _ Hc') as [IH1 IH2]. rewrite Hs in IH1, IH2.
    cbn [fst snd] in *.
    assert (E : (seen ++ listings (call :: calls))%list
                = ((seen ++ listings [call]) ++ listings calls)%list).
    { unfold listings. cbn [flat_map]. now rewrite app_nil_r, app_assoc. }
    rewrite E. split; [| exact IH2].
    constructor; [| exact IH1].
    destruct Ha as [-> | (l & Hin & ->)]; [now left |].
    right. exists l. split; [apply in_or_app; now left | reflexivity].
Qed.

(** X13. Whatever series of requests the server answers from the empty
    cache it starts with, every answer is either the fallback list or the
    named entries of a listing the network delivered during the
    series (as the outcome of one of its requests); the cache duration
    stays one hour; and the cached list and
    its time are either both missing or both set. *)
Theorem answers_come_from_the_network
    {Any : Type} (calls : list (Call Any)) :
  let served := serve_models (model_cache Any) calls in
  Forall (fun models =>
            models = default_models Any
            \/ exists listing,
                 In listing (listings calls)
                 /\ models = map model_info_of (filter usable listing))
         (fst served)
  /\ List.length (fst served) = List.length calls
  /\ ModelCache.cache_duration (snd served) = one_hour
  /\ (ModelCache.data (snd served) = None
      <-> ModelCache.last_updated (snd served) = None).
Proof.
  cbn zeta.
  destruct (serve_models_from calls (model_cache Any) [])
    as [Ha (Hd & Hdata)].
  { split; reflexivity. }
  cbn [app] in *. split; [exact Ha |]. split.
  - clear. generalize (model_cache Any).
    induction calls as [|call calls IH]; intros cache; [reflexivity |].
    cbn [serve_models].
    destruct (fetch_openrouter_models _ _ _ _) as [models cache'].
    specialize (IH cache'). destruct (serve_models cache' calls).
    cbn [fst List.length] in *. now rewrite IH.
  - split; [exact Hd |].
    destruct (ModelCache.data _).
    + destruct Hdata as [Hu _]. split; [discriminate | intros E; now contradiction Hu].
    + split; [intros _; exact Hdata | reflexivity].
Qed.

(** ** The frontend router of app.py *)

(** X14. [create_frontend_router] returns the dummy route, whose
    endpoint answers 503 with a plain-text hint, when the build directory
    is not a directory or has no regular [index.html]; otherwise it
    raises [RuntimeError] when the [assets] directory does not exist;
    otherwise it builds the app.  In the app, every call of
    [handle_catch_all] (on the file system the app was built on) answers
    with a regular file: the path obtained by joining the build directory
    and the requested path when that exists and is a file, [index.html]
    otherwise. *)
Theorem frontend_serves_files_only
    (Path : Type) (joinpath : Path -> string -> Path)
    (fs : FileSystem Path) (build_path : Path) (path : string) :
  match create_frontend_router Path joinpath fs build_path with
  | ReactApp _ served_from static_files_path =>
      served_from = build_path
      /\ static_files_path = joinpath build_path "assets"
      /\ is_dir Path fs static_files_path = true
      /\ exists fp,
           handle_catch_all Path joinpath fs served_from path = FileResponse Path fp
           /\ is_file Path fs fp = true
           /\ (fp = joinpath build_path path
               /\ path_exists Path fs (joinpath build_path path) = true
               \/ (is_file Path fs (joinpath build_path path)
                     && path_exists Path fs (joinpath build_path path) = false
                   /\ fp = joinpath build_path "index.html"))
  | DummyRoute _ =>
      (is_dir Path fs build_path = false
       \/ is_file Path fs (joinpath build_path "index.html") = false)
      /\ exists body, dummy_frontend Path = PlainResponse Path body "text/plain" 503
  | StaticFilesError _ directory =>
      directory = joinpath build_path "assets"
      /\ is_dir Path fs directory = false
      /\ is_dir Path fs build_path = true
      /\ is_file Path fs (joinpath build_path "index.html") = true
  end.
Proof.
  unfold create_frontend_router.
  destruct (is_dir Path fs build_path) eqn:Hd; cbn [negb orb].
  - destruct (is_file Path fs (joinpath build_path "index.html")) eqn:Hi; cbn [negb].
    + destruct (is_dir Path fs (joinpath build_path "assets")) eqn:Ha.
      * split; [reflexivity |]. split; [reflexivity |]. split; [exact Ha |].
        unfold handle_catch_all.
        destruct (path_exists Path fs (joinpath build_path path)) eqn:He;
          cbn [negb orb].
        -- destruct (is_file Path fs (joinpath build_path path)) eqn:Hf; cbn [negb].
           ++ eexists. split; [reflexivity |]. split; [exact Hf |]. left. now split.
           ++ eexists. split; [reflexivity |]. split; [exact Hi |]. right. now split.
        -- eexists. split; [reflexivity |]. split; [exact Hi |]. right.
           split; [now rewrite andb_false_r | reflexivity].
      * repeat split; assumption.
    + split; [now right |]. eexists. reflexivity.
  - split; [now left |]. eexists. reflexivity.
Qed.
